(** * paz: image processors and the hand-keypoint loader

    A shallow embedding of [paz/processors/image2.py] and of
    [examples/hand_pose_estimation/hand_keypoints.py].

    Conventions of the embedding.
    - Python exceptions are values of [PyError]; a computation that may raise
      returns a [Result].
    - numpy floating-point values are idealised as rationals ([Q]); the
      trigonometry of [AddOcclusion] is done over the reals ([R]); the
      binary64 behaviour of the normalisation round trip on 8-bit pixel
      values is checked separately on primitive floats.
    - The process-wide random generator of numpy is an explicit tape of
      variates in [0,1) together with a read position; every draw reads one
      variate and advances the position.
    - An image is a three-dimensional array: a shape and an item function.
    - The functions of the image library, of the file system and of the JSON
      parser are parameters; each returns a value or raises. *)

From Stdlib Require Import QArith Qround Qabs Reals Psatz ZArith String Ascii List.
From Stdlib Require Import Floats.
From stdpp Require Import gmap strings list.

Local Open Scope Q_scope.

(** * Part 1: the embedding *)

(** ** Python exceptions and results *)

Inductive PyError : Type :=
  | ValueError (msg : string)
  | TypeError (msg : string)
  | AttributeError (attr : string)
  | IndexError
  | ZeroDivisionError
  | KeyError (key : string)
  | OSError (msg : string).

Inductive Result (A : Type) : Type :=
  | Ok (a : A)
  | Raise (e : PyError).
Arguments Ok {A} a.
Arguments Raise {A} e.

Definition result_bind {A B} (m : Result A) (k : A -> Result B) : Result B :=
  match m with
  | Ok a => k a
  | Raise e => Raise e
  end.

(** ** The random source

    [Tape] is the sequence of uniform variates the generator will deliver;
    a well-formed tape has every variate in [0,1). *)

Definition Tape := nat -> Q.

Definition valid_tape (t : Tape) : Prop := forall k, 0 <= t k /\ t k < 1.

(** A randomised computation reads the tape from a position and returns its
    value with the next position, or raises. *)
Definition Rand (A : Type) : Type := Tape -> nat -> Result (A * nat).

Definition ret {A} (a : A) : Rand A := fun _ p => Ok (a, p).

Definition raise {A} (e : PyError) : Rand A := fun _ _ => Raise e.

Definition bind {A B} (m : Rand A) (k : A -> Rand B) : Rand B :=
  fun t p =>
    match m t p with
    | Ok (a, p') => k a t p'
    | Raise e => Raise e
    end.

Definition lift {A} (r : Result A) : Rand A :=
  fun _ p =>
    match r with
    | Ok a => Ok (a, p)
    | Raise e => Raise e
    end.

Declare Scope rand_scope.
Delimit Scope rand_scope with rand.
Notation "'let*' x ':=' m 'in' k" := (bind m (fun x => k))
  (at level 10, x name, m at level 100, k at level 200, only parsing) : rand_scope.
Notation "'let*' ' pat ':=' m 'in' k" := (bind m (fun x => match x with pat => k end))
  (at level 10, pat pattern, m at level 100, k at level 200, only parsing) : rand_scope.
Local Open Scope rand_scope.

(** The message of numpy for an empty range of [randint]: it names [high]
    alone when [low] is 0. *)
Definition bounds_error (low : Z) : string :=
  if (low =? 0)%Z then "high <= 0" else "low >= high".

(** [numpy.random.uniform(low, high)]: [low + (high - low) * u]. *)
Definition random_uniform (low high : Q) : Rand Q :=
  fun t p => Ok (low + (high - low) * t p, S p).

(** [numpy.random.randint(low, high)]: an integer of [low, high); raises
    [ValueError] when the range is empty. *)
Definition random_randint (low high : Z) : Rand Z :=
  fun t p =>
    if (low >=? high)%Z then Raise (ValueError (bounds_error low))
    else Ok ((low + Qfloor (inject_Z (high - low) * t p))%Z, S p).

(** [numpy.random.randint(low, high, 3)]: three successive draws. *)
Definition random_randint3 (low high : Z) : Rand (Z * Z * Z) :=
  let* c0 := random_randint low high in
  let* c1 := random_randint low high in
  let* c2 := random_randint low high in
  ret (c0, c1, c2).

(** [numpy.random.choice(options)]: a uniformly drawn element. *)
Definition random_choice {A} (options : list A) : Rand A :=
  fun t p =>
    match nth_error options (Z.to_nat (Qfloor (inject_Z (Z.of_nat (length options)) * t p))) with
    | Some a => Ok (a, S p)
    | None => Raise (ValueError "a must be non-empty")
    end.

(** ** Arrays of shape (shape0, shape1, shape2) *)

Record ndarray : Type := mk_ndarray {
  shape0 : nat;
  shape1 : nat;
  shape2 : nat;
  item : nat -> nat -> nat -> Q
}.

(** Elementwise map ([array / 255.0], [array * 255.0], [astype]). *)
Definition amap (f : Q -> Q) (a : ndarray) : ndarray :=
  {| shape0 := shape0 a; shape1 := shape1 a; shape2 := shape2 a;
     item := fun i j k => f (item a i j k) |}.

(** numpy broadcasting of one axis: equal extents, or one of them is 1. *)
Definition broadcast_dim (m n : nat) : option nat :=
  if (m =? n)%nat then Some m
  else if (m =? 1)%nat then Some n
  else if (n =? 1)%nat then Some m
  else None.

Definition broadcast_index (extent i : nat) : nat :=
  if (extent =? 1)%nat then 0%nat else i.

Definition broadcast_msg : string := "operands could not be broadcast together".

(** A binary elementwise operation under broadcasting. *)
Definition broadcast2 (f : Q -> Q -> Q) (a b : ndarray) : Result ndarray :=
  match broadcast_dim (shape0 a) (shape0 b),
        broadcast_dim (shape1 a) (shape1 b),
        broadcast_dim (shape2 a) (shape2 b) with
  | Some h, Some w, Some c =>
      Ok {| shape0 := h; shape1 := w; shape2 := c;
            item := fun i j k =>
              f (item a (broadcast_index (shape0 a) i)
                        (broadcast_index (shape1 a) j)
                        (broadcast_index (shape2 a) k))
                (item b (broadcast_index (shape0 b) i)
                        (broadcast_index (shape1 b) j)
                        (broadcast_index (shape2 b) k)) |}
  | _, _, _ => Raise (ValueError broadcast_msg)
  end.

Definition np_multiply : ndarray -> ndarray -> Result ndarray := broadcast2 Qmult.
Definition np_add : ndarray -> ndarray -> Result ndarray := broadcast2 Qplus.

(** [np.split(image, [3], -1)]: the first three channels and the rest. *)
Definition np_split3 (image : ndarray) : ndarray * ndarray :=
  ({| shape0 := shape0 image; shape1 := shape1 image;
      shape2 := Nat.min 3 (shape2 image);
      item := item image |},
   {| shape0 := shape0 image; shape1 := shape1 image;
      shape2 := shape2 image - 3;
      item := fun i j k => item image i j (3 + k) |}).

(** [np.ones((H, W, 3)) * color] for a colour of three integers. *)
Definition color_plane (H W : nat) (color : Z * Z * Z) : ndarray :=
  let '(c0, c1, c2) := color in
  {| shape0 := H; shape1 := W; shape2 := 3;
     item := fun _ _ k =>
       1 * inject_Z (match k with O => c0 | 1%nat => c1 | _ => c2 end) |}.

(** Python slice bounds: negative indices count from the end, and both ends
    are clipped to the extent. *)
Definition slice_bound (extent : nat) (i : Z) : nat :=
  if (i <? 0)%Z then Z.to_nat (Z.max 0 (i + Z.of_nat extent))
  else Nat.min (Z.to_nat i) extent.

(** [a[y0:y1, x0:x1]] (all channels). *)
Definition slice2 (a : ndarray) (y0 y1 x0 x1 : Z) : ndarray :=
  let ys := slice_bound (shape0 a) y0 in
  let xs := slice_bound (shape1 a) x0 in
  {| shape0 := slice_bound (shape0 a) y1 - ys;
     shape1 := slice_bound (shape1 a) x1 - xs;
     shape2 := shape2 a;
     item := fun i j k => item a (ys + i) (xs + j) k |}.

(** [np.zeros((s0, s1, s2))]. *)
Definition np_zeros (s0 s1 s2 : nat) : ndarray :=
  {| shape0 := s0; shape1 := s1; shape2 := s2; item := fun _ _ _ => 0 |}.

Definition could_not_broadcast : string := "could not broadcast input array".

(** In an assignment the value is broadcast to the target: along an axis its
    extent is the target's, or 1. *)
Definition broadcasts_to (value target : nat) : bool :=
  (value =? target)%nat || (value =? 1)%nat.

(** [target[...] = value]: every item of the target is overwritten. *)
Definition assign (target value : ndarray) : Result ndarray :=
  if broadcasts_to (shape0 value) (shape0 target)
     && broadcasts_to (shape1 value) (shape1 target)
     && broadcasts_to (shape2 value) (shape2 target)
  then Ok {| shape0 := shape0 target; shape1 := shape1 target; shape2 := shape2 target;
             item := fun i j k =>
               item value (broadcast_index (shape0 value) i)
                          (broadcast_index (shape1 value) j)
                          (broadcast_index (shape2 value) k) |}
  else Raise (ValueError could_not_broadcast).

(** Two arrays agree: same shape and equal items inside the shape. *)
Definition array_eq (a b : ndarray) : Prop :=
  shape0 a = shape0 b /\ shape1 a = shape1 b /\ shape2 a = shape2 b /\
  forall i j k, (i < shape0 a)%nat -> (j < shape1 a)%nat -> (k < shape2 a)%nat ->
    item a i j k == item b i j k.

(** An array given by nested lists (rows, pixels, channels). *)
Definition of_lists (H W C : nat) (rows : list (list (list Q))) : ndarray :=
  {| shape0 := H; shape1 := W; shape2 := C;
     item := fun i j k => nth k (nth j (nth i rows nil) nil) 0 |}.

(** ** NormalizeImage / DenormalizeImage *)

Module NormalizeImage.
Definition call (image : ndarray) : ndarray := amap (fun v => v / 255) image.
End NormalizeImage.

Module DenormalizeImage.
Definition call (image : ndarray) : ndarray := amap (fun v => v * 255) image.
End DenormalizeImage.

(** The same two operations on binary64 values. *)
Definition normalize_float (x : float) : float := (x / 255)%float.
Definition denormalize_float (x : float) : float := (x * 255)%float.

(** The binary64 value of an 8-bit pixel. *)
Definition pixel_float (n : nat) : float :=
  PrimFloat.of_uint63 (Uint63.of_Z (Z.of_nat n)).

(** The round trip is exact on every pixel value below [n]. *)
Fixpoint roundtrip_exact_below (n : nat) : bool :=
  match n with
  | O => true
  | S k =>
      PrimFloat.eqb (denormalize_float (normalize_float (pixel_float k))) (pixel_float k)
      && roundtrip_exact_below k
  end.

(** ** Alpha-channel compositing *)

Definition alpha_msg : string := "Provided image does not contain alpha mask.".

Module AddPlainBackground.

(** [background_color] is [None] (random colour) or three integers. *)
Definition call (background_color : option (Z * Z * Z)) (image : ndarray)
  : Rand ndarray :=
  if negb (shape2 image =? 4)%nat then raise (ValueError alpha_msg)
  else
    let H := shape0 image in
    let W := shape1 image in
    let '(foreground, alpha) := np_split3 image in
    let alpha := amap (fun v => v / 255) alpha in
    let* background :=
      match background_color with
      | None =>
          let* color := random_randint3 0 256 in
          let background := color_plane H W color in
          lift (np_multiply (amap (fun v => 1 - v) alpha) background)
      | Some background_color => ret (color_plane H W background_color)
      end in
    let* foreground := lift (np_multiply alpha foreground) in
    lift (np_add foreground background).

End AddPlainBackground.

(** [ops.convert_image(image, ops.BGR2RGB)]: the channel order reversed. *)
Definition convert_image_BGR2RGB (image : ndarray) : ndarray :=
  {| shape0 := shape0 image; shape1 := shape1 image; shape2 := shape2 image;
     item := fun i j k => item image i j (2 - k) |}.

Module AddCroppedBackground.
Section WithImageLibrary.

(** [ops.load_image]: the decoded image stored at a path, or the
    exception of the image library. *)
Variable load_image : string -> Result ndarray.

Record config : Type := {
  image_filepaths : list string;
  box_size : Z;
  color_model : string
}.

Definition _crop_image (self : config) (background_image : ndarray)
  : Rand (option ndarray) :=
  let H := Z.of_nat (shape0 background_image) in
  let W := Z.of_nat (shape1 background_image) in
  if ((box_size self >=? H) || (box_size self >=? W))%Z then ret None
  else
    let* x_min := random_randint 0 (W - box_size self) in
    let* y_min := random_randint 0 (H - box_size self) in
    let x_max := (x_min + box_size self)%Z in
    let y_max := (y_min + box_size self)%Z in
    if ((y_min >? y_max) || (x_min >? x_max))%Z then ret None
    else ret (Some (slice2 background_image y_min y_max x_min x_max)).

Definition call (self : config) (image : ndarray) : Rand ndarray :=
  if negb (shape2 image =? 4)%nat then raise (ValueError alpha_msg)
  else
    let H := shape0 image in
    let W := shape1 image in
    let '(foreground, alpha) := np_split3 image in
    let alpha := amap (fun v => v / 255) alpha in
    let* random_arg :=
      random_randint 0 (Z.of_nat (length (image_filepaths self))) in
    let* filepath :=
      match nth_error (image_filepaths self) (Z.to_nat random_arg) with
      | Some filepath => ret filepath
      | None => raise IndexError
      end in
    let* background := lift (load_image filepath) in
    let background :=
      if String.eqb (color_model self) "RGB"
      then convert_image_BGR2RGB background else background in
    let* background := _crop_image self background in
    let* background :=
      match background with
      | None =>
          let* color := random_randint3 0 256 in
          ret (color_plane H W color)
      | Some background => ret background
      end in
    let* background :=
      lift (np_multiply (amap (fun v => 1 - v) alpha) background) in
    let* foreground := lift (np_multiply alpha foreground) in
    lift (np_add foreground background).

End WithImageLibrary.
End AddCroppedBackground.

(** ** RandomImageCrop *)

(** Python's [int(x)] on a float: truncation toward zero. *)
Definition int (x : Q) : Z := if Qle_bool 0 x then Qfloor x else Qceiling x.

Definition Qlt_bool (x y : Q) : bool := negb (Qle_bool y x).

Module RandomImageCrop.

(** [None] is "use the entire image"; otherwise [(min_iou, max_iou)]. *)
Definition sample_options : list (option (option Q * option Q)) :=
  [ None;
    Some (Some (1 # 10), None);
    Some (Some (3 # 10), None);
    Some (Some (7 # 10), None);
    Some (Some (9 # 10), None);
    Some (None, None) ].

(** The integer rectangle [x1, y1, x2, y2] built from the four draws. *)
Definition make_rect (left top w h : Q) : Z * Z * Z * Z :=
  (int left, int top, int (left + w), int (top + h)).

(** [current_image[rect[1]:rect[3], rect[0]:rect[2], :]]. *)
Definition crop (image : ndarray) (rect : Z * Z * Z * Z) : ndarray :=
  let '(x1, y1, x2, y2) := rect in slice2 image y1 y2 x1 x2.

(** One pass through the body of [for _ in range(50)], up to its last
    statement: [None] stands for [continue] (the trial is rejected),
    otherwise the locals [rect] and [current_image] as they are when the
    [return] is reached.  The division [h / w] of two Python floats raises
    on a zero divisor; [random.uniform(x)] is [uniform(low=x, high=1.0)]. *)
Definition trial_locals (image : ndarray)
  : Rand (option (Z * Z * Z * Z * ndarray)) :=
  let height := inject_Z (Z.of_nat (shape0 image)) in
  let width := inject_Z (Z.of_nat (shape1 image)) in
  let current_image := image in
  let* w := random_uniform ((3 # 10) * width) width in
  let* h := random_uniform ((3 # 10) * height) height in
  if Qeq_bool w 0 then raise ZeroDivisionError
  else if Qlt_bool (h / w) (1 # 2) || Qlt_bool 2 (h / w) then ret None
  else
    let* left := random_uniform (width - w) 1 in
    let* top := random_uniform (height - h) 1 in
    let rect := make_rect left top w h in
    let current_image := crop current_image rect in
    ret (Some (rect, current_image)).

(** The whole body: its last statement is [return image]. *)
Definition trial (image : ndarray) : Rand (option ndarray) :=
  let* locals := trial_locals image in
  match locals with
  | None => ret None
  | Some (rect, current_image) => ret (Some image)
  end.

(** [for _ in range(n)]: the value returned from inside the loop, if any,
    together with the number of trials that were run. *)
Fixpoint trials (n : nat) (image : ndarray) : Rand (option ndarray * nat) :=
  match n with
  | O => ret (None, O)
  | S n' =>
      let* r := trial image in
      match r with
      | Some out => ret (Some out, 1%nat)
      | None =>
          let* '(r', count) := trials n' image in
          ret (r', S count)
      end
  end.

(** [while True]: [fuel] bounds the number of passes of the outer loop;
    [None] means that the loop is still running when the fuel is spent.
    The result carries the total number of trials run. *)
Fixpoint call (fuel : nat) (image : ndarray) (t : Tape) (p : nat)
  : option (Result (ndarray * nat * nat)) :=
  match fuel with
  | O => None
  | S fuel' =>
      match random_choice sample_options t p with
      | Raise e => Some (Raise e)
      | Ok (None, p1) => Some (Ok (image, O, p1))
      | Ok (Some (min_iou, max_iou), p1) =>
          match trials 50 image t p1 with
          | Raise e => Some (Raise e)
          | Ok ((Some out, count), p2) => Some (Ok (out, count, p2))
          | Ok ((None, count), p2) =>
              match call fuel' image t p2 with
              | Some (Ok (out, count', p3)) =>
                  Some (Ok (out, (count + count')%nat, p3))
              | other => other
              end
          end
      end
  end.

End RandomImageCrop.

(** ** AddOcclusion

    The polygon is computed over the reals; the tape of this processor
    delivers real variates of [0,1). *)

Module AddOcclusion.
Section WithDrawing.
Local Open Scope R_scope.

(** [ops.draw_filled_polygon(image, vertices, color)]. *)
Variable draw_filled_polygon : ndarray -> list (Z * Z) -> Z * Z * Z -> ndarray.

Definition RTape := nat -> R.

Definition valid_rtape (t : RTape) : Prop := forall k, 0 <= t k < 1.

(** [np.random.randint(low, high)] from the variate [u]. *)
Definition randint (low high : Z) (u : R) : Z :=
  (low + Int_part (IZR (high - low) * u))%Z.

(** [np.random.uniform(low, high)] from the variate [u]. *)
Definition uniform (low high u : R) : R := low + (high - low) * u.

(** [astype(np.int32)] of a float: truncation toward zero (the 32-bit
    range is not modelled). *)
Definition astype_int32 (x : R) : Z :=
  if Rle_dec 0 x then Int_part x else (- Int_part (- x))%Z.

Definition max_distance (image : ndarray) (max_radius_scale : R) : R :=
  INR (Nat.max (shape0 image) (shape1 image)) * max_radius_scale.

Definition num_vertices (t : RTape) (p : nat) : nat :=
  Z.to_nat (randint 3 7 (t p)).

Definition angle_between_vertices (t : RTape) (p : nat) : R :=
  2 * PI / INR (num_vertices t p).

Definition initial_angle (t : RTape) (p : nat) : R :=
  uniform 0 (2 * PI) (t (p + 1)%nat).

(** [np.random.rand(2) * np.array([width, height])]. *)
Definition center (image : ndarray) (t : RTape) (p : nat) : R * R :=
  (t (p + 2)%nat * INR (shape1 image), t (p + 3)%nat * INR (shape0 image)).

Definition vertex_angle (t : RTape) (p : nat) (vertex_arg : nat) : R :=
  initial_angle t p + INR vertex_arg * angle_between_vertices t p.

(** The radius drawn in iteration [vertex_arg] of the loop. *)
Definition vertex_radius (image : ndarray) (max_radius_scale : R)
    (t : RTape) (p : nat) (vertex_arg : nat) : R :=
  uniform 0 (max_distance image max_radius_scale) (t (p + 4 + vertex_arg)%nat).

(** The body of the loop: the vertex stored at index [vertex_arg]. *)
Definition make_vertex (image : ndarray) (max_radius_scale : R)
    (t : RTape) (p : nat) (vertex_arg : nat) : Z * Z :=
  let angle := vertex_angle t p vertex_arg in
  let radius := vertex_radius image max_radius_scale t p vertex_arg in
  let '(cx, cy) := center image t p in
  (astype_int32 (radius * cos angle + cx), astype_int32 (radius * sin angle + cy)).

(** [vertices = np.zeros((num_vertices, 2))], then
    [vertices[vertex_arg] = ...] for every [vertex_arg] of the range. *)
Definition polygon (image : ndarray) (max_radius_scale : R)
    (t : RTape) (p : nat) : list (Z * Z) :=
  foldl (fun vertices vertex_arg =>
           <[vertex_arg := make_vertex image max_radius_scale t p vertex_arg]> vertices)
        (replicate (num_vertices t p) (0%Z, 0%Z))
        (seq 0 (num_vertices t p)).

(** The colour: three integers of [0, 256), drawn after the radii. *)
Definition color (t : RTape) (p : nat) : Z * Z * Z :=
  let q := (p + 4 + num_vertices t p)%nat in
  (randint 0 256 (t q), randint 0 256 (t (q + 1)%nat), randint 0 256 (t (q + 2)%nat)).

(** The image returned and the next tape position. *)
Definition call (max_radius_scale : R) (image : ndarray) (t : RTape) (p : nat)
  : ndarray * nat :=
  (draw_filled_polygon image (polygon image max_radius_scale t p) (color t p),
   (p + 4 + num_vertices t p + 3)%nat).

End WithDrawing.
End AddOcclusion.

(** ** CastImage

    A class is its namespace (with the inherited names) and, when it
    defines one, its [__getattr__] hook; an object is its class and its
    instance dictionary.  Attribute lookup tries the instance, then the
    class, then the hook. *)

Inductive PyValue : Type :=
  | PyNone
  | PyStr (s : string)
  | PyInt (z : Z)
  | PyFunction (name : string).

Record PyClass : Type := {
  class_namespace : gmap string PyValue;
  getattr_hook : option (string -> Result PyValue)
}.

Record PyObject : Type := {
  class_of : PyClass;
  instance_dict : gmap string PyValue
}.

Definition getattr (self : PyObject) (name : string) : Result PyValue :=
  match instance_dict self !! name with
  | Some v => Ok v
  | None =>
      match class_namespace (class_of self) !! name with
      | Some v => Ok v
      | None =>
          match getattr_hook (class_of self) with
          | Some hook => hook name
          | None => Raise (AttributeError name)
          end
      end
  end.

Definition setattr (self : PyObject) (name : string) (v : PyValue) : PyObject :=
  {| class_of := class_of self;
     instance_dict := <[name := v]> (instance_dict self) |}.

Module CastImage.
Section WithProcessor.

(** The base class [Processor] of [paz.core]. *)
Variable Processor : PyClass.

(** The class defines [__init__] and [call] and inherits the rest. *)
Definition class : PyClass :=
  {| class_namespace :=
       <["__init__" := PyFunction "CastImage.__init__"]>
         (<["call" := PyFunction "CastImage.call"]> (class_namespace Processor));
     getattr_hook := getattr_hook Processor |}.

(** The object handed to [__init__]: nothing is set on the instance. *)
Definition new : PyObject :=
  {| class_of := class; instance_dict := ∅ |}.

(** [self.dtype = self.dtype]: the right-hand side is evaluated first. *)
Definition __init__ (self : PyObject) (dtype : PyValue) : Result PyObject :=
  result_bind (getattr self "dtype") (fun v => Ok (setattr self "dtype" v)).

(** [CastImage(dtype)]. *)
Definition construct (dtype : PyValue) : Result PyObject :=
  __init__ new dtype.

End WithProcessor.
End CastImage.

(** ** Paths ([os.path] on POSIX) *)

(** [s.rfind(c)]: the last index of [c] in [s], or -1. *)
Fixpoint rfind_from (c : ascii) (s : string) (i last : Z) : Z :=
  match s with
  | EmptyString => last
  | String a s' => rfind_from c s' (i + 1)%Z (if Ascii.eqb a c then i else last)
  end.

Definition rfind (c : ascii) (s : string) : Z := rfind_from c s 0 (-1).

Fixpoint has_non_dot (s : string) : bool :=
  match s with
  | EmptyString => false
  | String a s' => negb (Ascii.eqb a ".") || has_non_dot s'
  end.

(** [os.path.splitext(p)]: the extension starts at the last dot of the last
    component; leading dots of that component do not count. *)
Definition splitext (p : string) : string * string :=
  let sepIndex := rfind "/" p in
  let dotIndex := rfind "." p in
  if (dotIndex >? sepIndex)%Z
     && has_non_dot (substring (Z.to_nat (sepIndex + 1))
                               (Z.to_nat (dotIndex - (sepIndex + 1))) p)
  then (substring 0 (Z.to_nat dotIndex) p,
        substring (Z.to_nat dotIndex) (String.length p - Z.to_nat dotIndex) p)
  else (p, EmptyString).

Definition startswith_sep (s : string) : bool :=
  match s with
  | String a _ => Ascii.eqb a "/"
  | EmptyString => false
  end.

Fixpoint endswith_sep (s : string) : bool :=
  match s with
  | EmptyString => false
  | String a EmptyString => Ascii.eqb a "/"
  | String _ s' => endswith_sep s'
  end.

(** [os.path.join(a, b)] for two strings. *)
Definition posix_join (a b : string) : string :=
  if startswith_sep b then b
  else if String.eqb a EmptyString || endswith_sep a then String.append a b
  else String.append a (String "/" b).

(** The loader's [path]: one directory, or a list of directories. *)
Inductive path_arg : Type :=
  | PathStr (s : string)
  | PathList (folders : list string).

(** [os.path.join(path, file)]: the first argument must be a string. *)
Definition os_path_join (path : path_arg) (file : string) : Result string :=
  match path with
  | PathStr a => Ok (posix_join a file)
  | PathList _ =>
      Raise (TypeError "expected str, bytes or os.PathLike object, not list")
  end.

(** A loop whose body may raise. *)
Fixpoint for_each {A S} (body : S -> A -> Result S) (items : list A) (s : S)
  : Result S :=
  match items with
  | [] => Ok s
  | x :: rest => result_bind (body s x) (for_each body rest)
  end.

Fixpoint map_result {A B} (f : A -> Result B) (items : list A) : Result (list B) :=
  match items with
  | [] => Ok []
  | x :: rest =>
      result_bind (f x) (fun y =>
      result_bind (map_result f rest) (fun ys => Ok (y :: ys)))
  end.

(** [enumerate(items)]. *)
Definition enumerate {A} (items : list A) : list (nat * A) :=
  combine (seq 0 (length items)) items.

(** [items[arg] = value] on the first axis. *)
Definition setitem {A} (items : list A) (arg : nat) (value : A) : Result (list A) :=
  match items !! arg with
  | Some _ => Ok (<[arg := value]> items)
  | None => Raise IndexError
  end.

(** ** JSON values *)

(** A value built by [json.load]: [None], a [bool], an [int], a [float], a
    [str], a [list] or a [dict] with string keys (each key listed once). *)
#[local] Unset Elimination Schemes.
Inductive json : Type :=
  | JNone
  | JBool (b : bool)
  | JInt (z : Z)
  | JFloat (x : float)
  | JStr (s : string)
  | JList (items : list json)
  | JDict (members : list (string * json)).
#[local] Set Elimination Schemes.

Fixpoint dict_lookup (key : string) (members : list (string * json)) : option json :=
  match members with
  | [] => None
  | (k, v) :: rest => if String.eqb k key then Some v else dict_lookup key rest
  end.

(** [data[key]] for a string [key]. *)
Definition getitem (data : json) (key : string) : Result json :=
  match data with
  | JDict members =>
      match dict_lookup key members with
      | Some v => Ok v
      | None => Raise (KeyError key)
      end
  | JList _ => Raise (TypeError "list indices must be integers or slices, not str")
  | JStr _ => Raise (TypeError "string indices must be integers, not 'str'")
  | JNone => Raise (TypeError "'NoneType' object is not subscriptable")
  | JBool _ => Raise (TypeError "'bool' object is not subscriptable")
  | JInt _ => Raise (TypeError "'int' object is not subscriptable")
  | JFloat _ => Raise (TypeError "'float' object is not subscriptable")
  end.

(** [value.to_numpy()] on a value built by [json.load]: none of the types
    [NoneType], [bool], [int], [float], [str], [list] and [dict] has an
    attribute of that name, so the lookup raises before anything is
    called. *)
Definition to_numpy (value : json) : Result (list Q) :=
  Raise (AttributeError "to_numpy").

(** ** HandKeypoints *)

(** One label: 21 triplets. *)
Definition keypoints_t : Type := list (Q * Q * Q).

Fixpoint triplets (values : list Q) : list (Q * Q * Q) :=
  match values with
  | x :: y :: z :: rest => (x, y, z) :: triplets rest
  | _ => []
  end.

(** [array.reshape(21, 3)] of a one-dimensional array. *)
Definition reshape_21_3 (array : list Q) : Result keypoints_t :=
  if (length array =? 63)%nat then Ok (triplets array)
  else Raise (ValueError "cannot reshape array into shape (21,3)").

(** The values stored in a sample dictionary. *)
Inductive field : Type :=
  | FImage (image : ndarray)
  | FKeypoints (keypoints : keypoints_t).

Module HandKeypoints.
Section WithFileSystem.

(** [os.listdir]: the names in a directory, in the order the system
    reports them, or the error of the system. *)
Variable listdir : string -> Result (list string).
(** [load_image] and [resize_image] of the image backend. *)
Variable load_image : string -> Result ndarray.
Variable resize_image : ndarray -> nat * nat -> Result ndarray.
(** [open(label_path, 'r')] followed by [json.load(fid)]. *)
Variable json_load : string -> Result json.

Record loader : Type := {
  path : path_arg;
  image_size : nat * nat * nat;
  split : string
}.

(** The body of [for arg, image_path in enumerate(image_paths)]:
    [hands[arg] = resized] broadcasts the resized image into the slot of
    shape [image_size]. *)
Definition load_hand (self : loader) (hands : list ndarray) (entry : nat * string)
  : Result (list ndarray) :=
  let '(arg, image_path) := entry in
  result_bind (load_image image_path) (fun image =>
  result_bind (resize_image image (fst (fst (image_size self)), snd (fst (image_size self))))
    (fun resized =>
  match hands !! arg with
  | Some slot => result_bind (assign slot resized) (setitem hands arg)
  | None => Raise IndexError
  end)).

Definition _load_images (self : loader) (image_paths : list string)
  : Result (list ndarray) :=
  let hands :=
    replicate (length image_paths)
      (np_zeros (fst (fst (image_size self))) (snd (fst (image_size self)))
                (snd (image_size self))) in
  for_each (load_hand self) (enumerate image_paths) hands.

(** The body of [for arg, label_path in enumerate(label_paths)]. *)
Definition load_label (keypoints : list keypoints_t) (entry : nat * string)
  : Result (list keypoints_t) :=
  let '(arg, label_path) := entry in
  result_bind (json_load label_path) (fun data =>
  result_bind (getitem data "hand_pts") (fun keypoint_set =>
  result_bind (to_numpy keypoint_set) (fun array =>
  result_bind (reshape_21_3 array) (setitem keypoints arg)))).

Definition _load_labels (label_paths : list string) : Result (list keypoints_t) :=
  let keypoints := replicate (length label_paths) (replicate 21 (0, 0, 0)) in
  for_each load_label (enumerate label_paths) keypoints.

(** The body of [for file in os.listdir(...)]; [joined] is the first
    argument given to [os.path.join]. *)
Definition add_file (joined : path_arg) (paths : list string * list string)
    (file : string) : Result (list string * list string) :=
  let '(image_paths, label_paths) := paths in
  if String.eqb (snd (splitext file)) ".jpg" then
    result_bind (os_path_join joined file) (fun p => Ok (image_paths ++ [p], label_paths))
  else if String.eqb (snd (splitext file)) ".json" then
    result_bind (os_path_join joined file) (fun p => Ok (image_paths, label_paths ++ [p]))
  else Ok paths.

(** [_load_paths(self.path)], as [load_data] calls it. *)
Definition _load_paths (path : path_arg) : Result (list string * list string) :=
  match path with
  | PathStr dir =>
      result_bind (listdir dir) (fun files =>
      for_each (add_file path) files ([], []))
  | PathList folders =>
      for_each (fun paths folder =>
                  result_bind (listdir folder) (fun files =>
                  for_each (add_file path) files paths))
               folders ([], [])
  end.

(** The body of [for arg in range(len(hands))]. *)
Definition make_sample (hands : list ndarray) (keypoints : option (list keypoints_t))
    (arg : nat) : Result (gmap string field) :=
  match hands !! arg with
  | None => Raise IndexError
  | Some hand =>
      let sample : gmap string field := <["image" := FImage hand]> ∅ in
      match keypoints with
      | None => Ok sample
      | Some keypoints =>
          match keypoints !! arg with
          | None => Raise IndexError
          | Some k => Ok (<["keypoints" := FKeypoints k]> sample)
          end
      end
  end.

Definition _to_list_of_dictionaries (hands : list ndarray)
    (keypoints : option (list keypoints_t)) : Result (list (gmap string field)) :=
  map_result (make_sample hands keypoints) (seq 0 (length hands)).

Definition load_data (self : loader) : Result (list (gmap string field)) :=
  result_bind (_load_paths (path self)) (fun '(image_paths, label_paths) =>
  result_bind (_load_images self image_paths) (fun hands =>
  if String.eqb (split self) "train" then
    result_bind (_load_labels label_paths) (fun keypoints =>
    _to_list_of_dictionaries hands (Some keypoints))
  else _to_list_of_dictionaries hands None)).

End WithFileSystem.
End HandKeypoints.

(** ** Definitions used by the statements *)

(** Alpha blending as the specification words it:
    [alpha * foreground + (1 - alpha) * background]. *)
Definition blend (alpha foreground background : Q) : Q :=
  alpha * foreground + (1 - alpha) * background.

(** Channel [k] of a colour. *)
Definition channel (color : Z * Z * Z) (k : nat) : Z :=
  match k with
  | O => fst (fst color)
  | 1%nat => snd (fst color)
  | _ => snd color
  end.

(** Two extents that numpy can broadcast against each other. *)
Definition compatible (m n : nat) : Prop := m = n \/ m = 1%nat \/ n = 1%nat.

(** The last three statements shared by the compositing processors: the
    background is weighted by [1 - alpha], the foreground by [alpha], and
    the two are added. *)
Definition weighted_sum (image background : ndarray) : Result ndarray :=
  let '(foreground, alpha) := np_split3 image in
  let alpha := amap (fun v => v / 255) alpha in
  result_bind (np_multiply (amap (fun v => 1 - v) alpha) background) (fun background =>
  result_bind (np_multiply alpha foreground) (fun foreground =>
  np_add foreground background)).

(** A result placed at a tape position. *)
Definition at_position {A} (r : Result A) (p : nat) : Result (A * nat) :=
  match r with
  | Ok a => Ok (a, p)
  | Raise e => Raise e
  end.

(** The background image that [AddCroppedBackground.call] selects from the
    pool with the draw at position [p], after the colour conversion. *)
Definition selected_background (load_image : string -> Result ndarray)
    (self : AddCroppedBackground.config) (t : Tape) (p : nat) : option ndarray :=
  match random_randint 0 (Z.of_nat (length (AddCroppedBackground.image_filepaths self))) t p with
  | Ok (random_arg, _) =>
      match nth_error (AddCroppedBackground.image_filepaths self) (Z.to_nat random_arg) with
      | Some filepath =>
          match load_image filepath with
          | Ok background =>
              Some (if String.eqb (AddCroppedBackground.color_model self) "RGB"
                    then convert_image_BGR2RGB background else background)
          | Raise _ => None
          end
      | None => None
      end
  | Raise _ => None
  end.

(** The tape that always delivers one half. *)
Definition half_tape : Tape := fun _ => 1 # 2.

(** The image of the scenario: 2 x 2 pixels of colour (100, 150, 200) with
    the alpha channel [[255, 0], [128, 255]]. *)
Definition scenario_image : ndarray :=
  of_lists 2 2 4
    [ [ [100; 150; 200; 255]; [100; 150; 200; 0] ];
      [ [100; 150; 200; 128]; [100; 150; 200; 255] ] ].

(** A 4 x 4 background of three channels, the one image of a pool. *)
Definition example_background : ndarray :=
  {| shape0 := 4; shape1 := 4; shape2 := 3;
     item := fun i j k => inject_Z (Z.of_nat (16 * i + 4 * j + k)) |}.

Definition example_load_image : string -> Result ndarray :=
  fun _ => Ok example_background.

Definition example_pool (box_size : Z) : AddCroppedBackground.config :=
  {| AddCroppedBackground.image_filepaths := ["background.png"%string];
     AddCroppedBackground.box_size := box_size;
     AddCroppedBackground.color_model := "BGR" |}.

(** An opaque 3 x 3 image of four channels. *)
Definition example_image : ndarray :=
  {| shape0 := 3; shape1 := 3; shape2 := 4;
     item := fun _ _ k => if (k =? 3)%nat then 255 else 100 |}.

(** An image ten pixels high and one pixel wide. *)
Definition tall_image : ndarray :=
  {| shape0 := 10; shape1 := 1; shape2 := 3; item := fun _ _ _ => 0 |}.

(** A 4 x 4 image of three channels. *)
Definition square_image : ndarray :=
  {| shape0 := 4; shape1 := 4; shape2 := 3;
     item := fun i j k => inject_Z (Z.of_nat (16 * i + 4 * j + k)) |}.


(** The real tape that always delivers one half, and a drawing routine that
    leaves the image alone. *)
Definition half_rtape : AddOcclusion.RTape := fun _ => (1 / 2)%R.


(** A base class with the two methods of [Processor] and no
    [__getattr__]. *)
Definition example_Processor : PyClass :=
  {| class_namespace :=
       <["call" := PyFunction "Processor.call"]>
         (<["__call__" := PyFunction "Processor.__call__"]> ∅);
     getattr_hook := None |}.

(** A file that [_load_paths] collects. *)
Definition is_data_file (file : string) : bool :=
  String.eqb (snd (splitext file)) ".jpg" || String.eqb (snd (splitext file)) ".json".

Definition path_type_error : PyError :=
  TypeError "expected str, bytes or os.PathLike object, not list".

(** The names of a listing with a given extension, in listing order, and
    the stem of a name. *)
Definition files_with_ext (ext : string) (files : list string) : list string :=
  List.filter (fun file => String.eqb (snd (splitext file)) ext) files.

Definition stem (file : string) : string := fst (splitext file).

(** A file system in which every directory can be listed. *)
Definition listed (listing : string -> list string) : string -> Result (list string) :=
  fun dir => Ok (listing dir).

(** What one pass of the loop of [_load_images] leaves in its slot: the
    image is loaded, resized and broadcast into a slot of zeros of shape
    [size]. *)
Definition stored_image (load_image : string -> Result ndarray)
    (resize_image : ndarray -> nat * nat -> Result ndarray)
    (size : nat * nat * nat) (image_path : string) : Result ndarray :=
  result_bind (load_image image_path) (fun image =>
  result_bind (resize_image image (fst (fst size), snd (fst size))) (fun resized =>
  assign (np_zeros (fst (fst size)) (snd (fst size)) (snd size)) resized)).

(** The sample of an image without keypoints. *)
Definition image_sample (hand : ndarray) : gmap string field :=
  <["image" := FImage hand]> ∅.

(** A directory whose listing puts the label of [b] before the label of
    [a], and the contents of its files. *)
Definition example_listdir (dir : string) : list string :=
  ["a.jpg"; "b.jpg"; "b.json"; "a.json"]%string.

(** A photograph of 480 x 640 pixels with three channels. *)
Definition example_hand (value : Q) : ndarray :=
  {| shape0 := 480; shape1 := 640; shape2 := 3;
     item := fun i j k => value + inject_Z (Z.of_nat k) |}.

Definition hand_a : ndarray := example_hand 1.
Definition hand_b : ndarray := example_hand 2.

Definition no_such_file : PyError := OSError "No such file or directory".

Definition example_load_hand (image_path : string) : Result ndarray :=
  if String.eqb image_path "dataset/a.jpg" then Ok hand_a
  else if String.eqb image_path "dataset/b.jpg" then Ok hand_b
  else Raise no_such_file.

(** Resizing by taking the nearest pixel. *)
Definition example_resize (image : ndarray) (size : nat * nat) : Result ndarray :=
  Ok {| shape0 := fst size; shape1 := snd size; shape2 := shape2 image;
        item := fun i j k =>
          item image (i * shape0 image / fst size) (j * shape1 image / snd size) k |}.

(** A label file: a dict whose ['hand_pts'] is a list of 21 triplets. *)
Definition example_label (x : Z) : json :=
  JDict [("hand_pts"%string, JList (replicate 21 (JList [JInt x; JInt x; JInt 1])));
         ("is_left"%string, JInt 0)].

Definition example_json_load (label_path : string) : Result json :=
  if String.eqb label_path "dataset/a.json" then Ok (example_label 1)
  else if String.eqb label_path "dataset/b.json" then Ok (example_label 2)
  else Raise no_such_file.

Definition example_loader : HandKeypoints.loader :=
  {| HandKeypoints.path := PathStr "dataset/";
     HandKeypoints.image_size := (300, 300, 3)%nat;
     HandKeypoints.split := "train" |}.

(** ** SubtractMeanImage / AddMeanImage *)

(** A list of numbers used as an operand: a one-dimensional array, which
    numpy aligns with the last axis. *)
Definition np_of_list (values : list Q) : ndarray :=
  {| shape0 := 1; shape1 := 1; shape2 := length values;
     item := fun _ _ k => nth k values 0 |}.

Module SubtractMeanImage.
Definition call (mean : list Q) (image : ndarray) : Result ndarray :=
  broadcast2 Qminus image (np_of_list mean).
End SubtractMeanImage.

Module AddMeanImage.
Definition call (mean : list Q) (image : ndarray) : Result ndarray :=
  broadcast2 Qplus image (np_of_list mean).
End AddMeanImage.

(** ** RandomLightingNoise *)

(** [image[:, :, swap]] for a tuple of three channel indices: the three
    channels in that order; an index outside the channels raises. *)
Definition take_channels (image : ndarray) (swap : nat * nat * nat) : Result ndarray :=
  let '(c0, c1, c2) := swap in
  if (c0 <? shape2 image)%nat && (c1 <? shape2 image)%nat && (c2 <? shape2 image)%nat
  then Ok {| shape0 := shape0 image; shape1 := shape1 image; shape2 := 3;
             item := fun i j k =>
               item image i j (match k with O => c0 | 1%nat => c1 | _ => c2 end) |}
  else Raise IndexError.

Module RandomLightingNoise.

Definition permutations : list (nat * nat * nat) :=
  [ (0, 1, 2); (0, 2, 1); (1, 0, 2); (1, 2, 0); (2, 0, 1); (2, 1, 0) ]%nat.

(** [random.randint(n)] is [randint(low=0, high=n)]. *)
Definition call (image : ndarray) : Rand ndarray :=
  let* arg := random_randint 0 (Z.of_nat (length permutations)) in
  let* swap :=
    match nth_error permutations (Z.to_nat arg) with
    | Some swap => ret swap
    | None => raise IndexError
    end in
  lift (take_channels image swap).

End RandomLightingNoise.

(** ** ResizeImages *)

Module ResizeImages.
Section WithProcessor.

(** The base class [Processor] of [paz.core], what its [__init__] does to
    the instance, and [tf.image.resize]. *)
Variable Processor : PyClass.
Variable Processor_init : PyObject -> Result PyObject.
Variable tf_image_resize : ndarray -> PyValue -> ndarray.

Definition class : PyClass :=
  {| class_namespace :=
       <["__init__" := PyFunction "ResizeImages.__init__"]>
         (<["call" := PyFunction "ResizeImages.call"]> (class_namespace Processor));
     getattr_hook := getattr_hook Processor |}.

Definition new : PyObject :=
  {| class_of := class; instance_dict := ∅ |}.

(** [self.size = size], then [super().__init__()]. *)
Definition __init__ (self : PyObject) (size : PyValue) : Result PyObject :=
  Processor_init (setattr self "size" size).

(** [ResizeImages(size)]. *)
Definition construct (size : PyValue) : Result PyObject := __init__ new size.

(** [[tf.image.resize(image, self.shape) for image in images]]. *)
Definition call (self : PyObject) (images : list ndarray) : Result (list ndarray) :=
  map_result
    (fun image =>
       result_bind (getattr self "shape") (fun shape =>
       Ok (tf_image_resize image shape)))
    images.

End WithProcessor.
End ResizeImages.

(** ** Further definitions used by the statements *)

(** A base-class initialiser that sets [probability] and [name]. *)
Definition example_Processor_init (self : PyObject) : Result PyObject :=
  Ok (setattr (setattr self "probability" PyNone) "name" PyNone).

Definition example_resize_tf (image : ndarray) (size : PyValue) : ndarray := image.

(** The channel that [swap] puts at position [k]. *)
Definition swapped (swap : nat * nat * nat) (k : nat) : nat :=
  match k with O => fst (fst swap) | 1%nat => snd (fst swap) | _ => snd swap end.

(** A channel rearrangement that uses each of the three channels once. *)
Definition is_permutation (swap : nat * nat * nat) : Prop :=
  forall c, (c < 3)%nat -> exists k, (k < 3)%nat /\ swapped swap k = c.

(** A loader of the same directory for the test split. *)
Definition example_test_loader : HandKeypoints.loader :=
  {| HandKeypoints.path := PathStr "dataset/";
     HandKeypoints.image_size := (300, 300, 3)%nat;
     HandKeypoints.split := "test" |}.

(** A parser that fails on every label file. *)
Definition unreadable_labels (label_path : string) : Result json :=
  Raise (ValueError "Expecting value").

(** A listing without any image or label. *)
Definition notes_listdir (dir : string) : list string :=
  ["notes.txt"; "README"]%string.

(** A listing with two images and no label. *)
Definition unlabelled_listdir (dir : string) : list string :=
  ["a.jpg"; "b.jpg"; "notes.txt"]%string.

(** A label file without the field ['hand_pts']. *)
Definition other_json_load (label_path : string) : Result json :=
  Ok (JDict [("is_left"%string, JInt 0)]).

(** A file system without the directory. *)
Definition missing_directory (dir : string) : Result (list string) :=
  Raise no_such_file.

(** * Part 2: properties *)

(** ** Arrays and broadcasting *)

Section Broadcasting.
Implicit Types (a b : ndarray) (f : Q -> Q -> Q).

Lemma broadcast_dim_same n : broadcast_dim n n = Some n.
Proof. unfold broadcast_dim. by rewrite Nat.eqb_refl. Qed.

Lemma broadcast_dim_one_l n : broadcast_dim 1 n = Some n.
Proof.
  unfold broadcast_dim. destruct (Nat.eqb_spec 1 n) as [<- | _]; done.
Qed.

Lemma broadcast_dim_Some m n r :
  broadcast_dim m n = Some r ->
  compatible m n /\ broadcast_dim m r = Some r /\ (r = m \/ r = n).
Proof.
  unfold broadcast_dim, compatible.
  destruct (Nat.eqb_spec m n) as [-> | Hmn].
  - intros [= <-]. rewrite Nat.eqb_refl. auto.
  - destruct (Nat.eqb_spec m 1) as [-> | Hm1].
    + intros [= <-]. destruct (Nat.eqb_spec 1 n); [lia | auto].
    + destruct (Nat.eqb_spec n 1) as [-> | Hn1]; [| done].
      intros [= <-]. rewrite Nat.eqb_refl. auto.
Qed.

Lemma broadcast_dim_None m n : broadcast_dim m n = None <-> ~ compatible m n.
Proof.
  unfold broadcast_dim, compatible.
  destruct (Nat.eqb_spec m n); [intuition congruence |].
  destruct (Nat.eqb_spec m 1); [intuition congruence |].
  destruct (Nat.eqb_spec n 1); intuition congruence.
Qed.

Lemma compatible_dim m n : compatible m n -> exists r, broadcast_dim m n = Some r.
Proof.
  intros Hc. destruct (broadcast_dim m n) as [r |] eqn:E; [eauto |].
  by apply broadcast_dim_None in E.
Qed.

Lemma broadcast_index_lt n i : (i < n)%nat -> broadcast_index n i = i.
Proof.
  unfold broadcast_index. intros Hlt.
  destruct (Nat.eqb_spec n 1) as [-> | _]; [lia | done].
Qed.

Lemma broadcast2_ok f a b h w c :
  broadcast_dim (shape0 a) (shape0 b) = Some h ->
  broadcast_dim (shape1 a) (shape1 b) = Some w ->
  broadcast_dim (shape2 a) (shape2 b) = Some c ->
  broadcast2 f a b =
  Ok {| shape0 := h; shape1 := w; shape2 := c;
        item := fun i j k =>
          f (item a (broadcast_index (shape0 a) i) (broadcast_index (shape1 a) j)
                    (broadcast_index (shape2 a) k))
            (item b (broadcast_index (shape0 b) i) (broadcast_index (shape1 b) j)
                    (broadcast_index (shape2 b) k)) |}.
Proof. intros H0 H1 H2. unfold broadcast2. by rewrite H0, H1, H2. Qed.

Lemma broadcast2_raise f a b :
  ~ compatible (shape0 a) (shape0 b) \/ ~ compatible (shape1 a) (shape1 b) \/
  ~ compatible (shape2 a) (shape2 b) ->
  broadcast2 f a b = Raise (ValueError broadcast_msg).
Proof.
  rewrite <- !broadcast_dim_None. unfold broadcast2.
  intros [-> | [H | H]]; [done | |];
    destruct (broadcast_dim (shape0 a) (shape0 b)); try done; rewrite H; try done.
  by destruct (broadcast_dim (shape1 a) (shape1 b)).
Qed.

(** A broadcast operation either returns or reports the shapes. *)
Lemma broadcast2_cases f a b :
  (exists r, broadcast2 f a b = Ok r) \/
  broadcast2 f a b = Raise (ValueError broadcast_msg).
Proof.
  unfold broadcast2.
  destruct (broadcast_dim (shape0 a) (shape0 b)); [| by right].
  destruct (broadcast_dim (shape1 a) (shape1 b)); [| by right].
  destruct (broadcast_dim (shape2 a) (shape2 b)); [| by right].
  left. eauto.
Qed.
End Broadcasting.

(** ** Compositing *)

Lemma color_plane_item H W color i j k :
  item (color_plane H W color) i j k == inject_Z (channel color k).
Proof.
  destruct color as [[c0 c1] c2]. simpl.
  destruct k as [| [| k]]; simpl; ring.
Qed.

Lemma color_plane_shape H W color :
  shape0 (color_plane H W color) = H /\ shape1 (color_plane H W color) = W /\
  shape2 (color_plane H W color) = 3%nat.
Proof. by destruct color as [[c0 c1] c2]. Qed.

(** The weighted sum returns exactly when the background broadcasts against
    the image plane; otherwise numpy reports the shapes. *)
Lemma weighted_sum_ok image background :
  shape2 image = 4%nat ->
  compatible (shape0 image) (shape0 background) ->
  compatible (shape1 image) (shape1 background) ->
  compatible 3 (shape2 background) ->
  exists out, weighted_sum image background = Ok out.
Proof.
  intros HC H0 H1 H2. unfold weighted_sum, np_split3, np_multiply, np_add.
  destruct (compatible_dim _ _ H0) as [h Hh].
  destruct (compatible_dim _ _ H1) as [w Hw].
  erewrite (broadcast2_ok _ _ background h w (shape2 background));
    [| exact Hh | exact Hw | simpl; rewrite HC; apply broadcast_dim_one_l].
  simpl result_bind.
  erewrite broadcast2_ok;
    [| simpl; apply broadcast_dim_same | simpl; apply broadcast_dim_same
     | simpl; rewrite HC; apply broadcast_dim_one_l ].
  simpl result_bind.
  destruct (compatible_dim _ _ H2) as [c Hc].
  erewrite broadcast2_ok; [eauto | simpl .. ].
  - apply (broadcast_dim_Some _ _ _ Hh).
  - apply (broadcast_dim_Some _ _ _ Hw).
  - exact Hc.
Qed.

Lemma weighted_sum_raise image background :
  shape2 image = 4%nat ->
  ~ compatible (shape0 image) (shape0 background) \/
  ~ compatible (shape1 image) (shape1 background) \/
  ~ compatible 3 (shape2 background) ->
  weighted_sum image background = Raise (ValueError broadcast_msg).
Proof.
  intros HC Hbad. unfold weighted_sum, np_split3, np_multiply, np_add.
  destruct (broadcast_dim (shape0 image) (shape0 background)) as [h |] eqn:Hh.
  2: { rewrite broadcast2_raise; [done | left; by apply broadcast_dim_None]. }
  destruct (broadcast_dim (shape1 image) (shape1 background)) as [w |] eqn:Hw.
  2: { rewrite broadcast2_raise; [done | right; left; by apply broadcast_dim_None]. }
  destruct Hbad as [Hbad | [Hbad | Hbad]];
    [apply broadcast_dim_None in Hbad; congruence
    | apply broadcast_dim_None in Hbad; congruence |].
  erewrite (broadcast2_ok _ _ background h w (shape2 background));
    [| exact Hh | exact Hw | simpl; rewrite HC; apply broadcast_dim_one_l].
  simpl result_bind.
  erewrite broadcast2_ok;
    [| simpl; apply broadcast_dim_same | simpl; apply broadcast_dim_same
     | simpl; rewrite HC; apply broadcast_dim_one_l ].
  simpl result_bind.
  apply broadcast2_raise. right; right. exact Hbad.
Qed.

(** With a background of the image's height and width and three channels,
    the weighted sum is the alpha blend of every pixel. *)
Lemma weighted_sum_blend image background :
  shape2 image = 4%nat ->
  shape0 background = shape0 image ->
  shape1 background = shape1 image ->
  shape2 background = 3%nat ->
  exists out,
    weighted_sum image background = Ok out /\
    shape0 out = shape0 image /\ shape1 out = shape1 image /\ shape2 out = 3%nat /\
    forall i j k, (i < shape0 image)%nat -> (j < shape1 image)%nat -> (k < 3)%nat ->
      item out i j k ==
      blend (item image i j 3 / 255) (item image i j k) (item background i j k).
Proof.
  intros HC H0 H1 H2. unfold weighted_sum, np_split3, np_multiply, np_add.
  erewrite (broadcast2_ok _ _ background);
    [| simpl; rewrite H0; apply broadcast_dim_same
     | simpl; rewrite H1; apply broadcast_dim_same
     | simpl; rewrite HC; apply broadcast_dim_one_l].
  simpl result_bind.
  erewrite broadcast2_ok;
    [| simpl; apply broadcast_dim_same | simpl; apply broadcast_dim_same
     | simpl; rewrite HC; apply broadcast_dim_one_l ].
  simpl result_bind.
  erewrite broadcast2_ok;
    [| simpl; apply broadcast_dim_same | simpl; apply broadcast_dim_same
     | simpl; rewrite H2; apply broadcast_dim_same ].
  eexists. split; [reflexivity |].
  cbn [shape0 shape1 shape2 item amap]. rewrite ?HC, ?H0, ?H1, ?H2.
  change (Nat.min 3 4) with 3%nat. change (4 - 3)%nat with 1%nat.
  repeat split. intros i j k Hi Hj Hk.
  rewrite !(broadcast_index_lt _ i Hi), !(broadcast_index_lt _ j Hj),
    !(broadcast_index_lt 3 k Hk).
  change (broadcast_index 1 k) with 0%nat. unfold blend. simpl. ring.
Qed.

(** ** The random source *)

Lemma half_tape_valid : valid_tape half_tape.
Proof. intros k. unfold half_tape. split; [discriminate | reflexivity]. Qed.

Lemma random_randint_range t p low high :
  valid_tape t -> (low < high)%Z ->
  exists z, random_randint low high t p = Ok (z, S p) /\ (low <= z < high)%Z.
Proof.
  intros Ht Hlt. unfold random_randint.
  destruct (Z.geb_spec low high) as [Hge | _]; [lia |].
  eexists. split; [reflexivity |].
  destruct (Ht p) as [H0 H1].
  set (n := (high - low)%Z).
  assert (Hn : 0 < inject_Z n) by (unfold Qlt; simpl; lia).
  assert (Hlo : (0 <= Qfloor (inject_Z n * t p))%Z).
  { change 0%Z with (Qfloor 0). apply Qfloor_resp_le.
    apply Qmult_le_0_compat; [by apply Qlt_le_weak | done]. }
  assert (Hhi : (Qfloor (inject_Z n * t p) < n)%Z).
  { rewrite Zlt_Qlt. eapply Qle_lt_trans; [apply Qfloor_le |].
    rewrite <- (Qmult_1_r (inject_Z n)) at 2.
    by apply Qmult_lt_l. }
  lia.
Qed.

Lemma random_randint_empty t p low high :
  (high <= low)%Z -> random_randint low high t p = Raise (ValueError (bounds_error low)).
Proof.
  intros Hle. unfold random_randint.
  destruct (Z.geb_spec low high); [done | lia].
Qed.

Lemma random_randint3_range t p low high :
  valid_tape t -> (low < high)%Z ->
  exists color,
    random_randint3 low high t p = Ok (color, (p + 3)%nat) /\
    forall k, (low <= channel color k < high)%Z.
Proof.
  intros Ht Hlt. unfold random_randint3, bind.
  destruct (random_randint_range t p low high Ht Hlt) as (c0 & -> & H0).
  destruct (random_randint_range t (S p) low high Ht Hlt) as (c1 & -> & H1).
  destruct (random_randint_range t (S (S p)) low high Ht Hlt) as (c2 & -> & H2).
  exists (c0, c1, c2). unfold ret. split; [repeat f_equal; lia |].
  intros [| [| k]]; done.
Qed.

(** ** AddPlainBackground *)

(** With no configured colour, the processor draws a colour and returns the
    weighted sum of the image and the plane of that colour. *)
Lemma plain_call_random image t p :
  shape2 image = 4%nat ->
  AddPlainBackground.call None image t p =
  match random_randint3 0 256 t p with
  | Ok (color, p') =>
      at_position
        (weighted_sum image (color_plane (shape0 image) (shape1 image) color)) p'
  | Raise e => Raise e
  end.
Proof.
  intros HC. unfold AddPlainBackground.call, weighted_sum, bind, lift, at_position.
  rewrite HC. cbn [Nat.eqb negb]. cbv beta iota zeta.
  destruct (np_split3 image) as [foreground alpha].
  destruct (random_randint3 0 256 t p) as [[color p'] | e]; [| done].
  destruct (np_multiply _ (color_plane _ _ color)) as [background | e];
    cbn [result_bind]; [| done].
  by destruct (np_multiply _ foreground) as [fg | e]; cbn [result_bind].
Qed.

(** The random-colour configuration blends every pixel. *)
Lemma plain_random_blend image t p :
  valid_tape t -> shape2 image = 4%nat ->
  exists out color,
    AddPlainBackground.call None image t p = Ok (out, (p + 3)%nat) /\
    random_randint3 0 256 t p = Ok (color, (p + 3)%nat) /\
    shape0 out = shape0 image /\ shape1 out = shape1 image /\ shape2 out = 3%nat /\
    forall i j k, (i < shape0 image)%nat -> (j < shape1 image)%nat -> (k < 3)%nat ->
      item out i j k ==
      blend (item image i j 3 / 255) (item image i j k) (inject_Z (channel color k)).
Proof.
  intros Ht HC. rewrite (plain_call_random _ _ _ HC).
  destruct (random_randint3_range t p 0 256 Ht) as (color & -> & _); [lia |].
  destruct (color_plane_shape (shape0 image) (shape1 image) color) as (S0 & S1 & S2).
  destruct (weighted_sum_blend image _ HC S0 S1 S2) as (out & -> & ? & ? & ? & Hitem).
  exists out, color. repeat split; try done.
  intros i j k Hi Hj Hk. rewrite (Hitem i j k Hi Hj Hk).
  unfold blend. by rewrite color_plane_item.
Qed.

(** With a configured colour the plane is added unweighted. *)
Lemma plain_configured_sum color image t p :
  shape2 image = 4%nat ->
  exists out,
    AddPlainBackground.call (Some color) image t p = Ok (out, p) /\
    shape0 out = shape0 image /\ shape1 out = shape1 image /\ shape2 out = 3%nat /\
    forall i j k, (i < shape0 image)%nat -> (j < shape1 image)%nat -> (k < 3)%nat ->
      item out i j k ==
      item image i j 3 / 255 * item image i j k + inject_Z (channel color k).
Proof.
  intros HC. unfold AddPlainBackground.call, bind, lift, ret, np_split3, np_multiply, np_add.
  rewrite HC. cbn [Nat.eqb negb]. cbv beta iota zeta.
  erewrite broadcast2_ok;
    [| simpl; apply broadcast_dim_same | simpl; apply broadcast_dim_same
     | simpl; apply broadcast_dim_one_l ].
  destruct (color_plane_shape (shape0 image) (shape1 image) color) as (S0 & S1 & S2).
  erewrite broadcast2_ok;
    [| simpl; rewrite S0; apply broadcast_dim_same
     | simpl; rewrite S1; apply broadcast_dim_same
     | simpl; rewrite S2; apply broadcast_dim_same ].
  eexists. split; [reflexivity |].
  cbn [shape0 shape1 shape2 item amap]. rewrite ?HC, ?S0, ?S1, ?S2.
  change (Nat.min 3 4) with 3%nat. change (4 - 3)%nat with 1%nat.
  repeat split. intros i j k Hi Hj Hk.
  rewrite !(broadcast_index_lt _ i Hi), !(broadcast_index_lt _ j Hj),
    !(broadcast_index_lt 3 k Hk).
  change (broadcast_index 1 k) with 0%nat.
  rewrite color_plane_item. simpl. ring.
Qed.

(** ** AddCroppedBackground *)

Section CroppedBackground.
Variable load_image : string -> Result ndarray.
Implicit Types (self : AddCroppedBackground.config) (image background : ndarray).

Local Abbreviation _crop_image := AddCroppedBackground._crop_image.
Local Abbreviation box_size := AddCroppedBackground.box_size.
Local Abbreviation image_filepaths := AddCroppedBackground.image_filepaths.

(** The first guard: no draw is made. *)
Lemma crop_image_too_small self background t p :
  (box_size self >= Z.of_nat (shape0 background) \/
   box_size self >= Z.of_nat (shape1 background))%Z ->
  _crop_image self background t p = Ok (None, p).
Proof.
  intros Hsmall. unfold _crop_image.
  destruct (Z.geb_spec (box_size self) (Z.of_nat (shape0 background)));
    destruct (Z.geb_spec (box_size self) (Z.of_nat (shape1 background)));
    try done; lia.
Qed.

(** The second guard fires exactly for a negative size. *)
Lemma crop_image_negative self background t p :
  valid_tape t ->
  (box_size self < 0)%Z ->
  _crop_image self background t p = Ok (None, (p + 2)%nat).
Proof.
  intros Ht Hneg. unfold _crop_image, bind.
  destruct (Z.geb_spec (box_size self) (Z.of_nat (shape0 background))); [lia |].
  destruct (Z.geb_spec (box_size self) (Z.of_nat (shape1 background))); [lia |].
  cbn [orb].
  destruct (random_randint_range t p 0 (Z.of_nat (shape1 background) - box_size self) Ht)
    as (x_min & -> & Hx); [lia |].
  destruct (random_randint_range t (S p) 0 (Z.of_nat (shape0 background) - box_size self) Ht)
    as (y_min & -> & Hy); [lia |].
  destruct (Z.gtb_spec y_min (y_min + box_size self)); [| lia].
  unfold ret. cbn [orb]. repeat f_equal. lia.
Qed.

(** Otherwise a square patch of the configured size is cut out, inside
    the background. *)
Lemma crop_image_patch self background t p :
  valid_tape t ->
  (0 <= box_size self < Z.of_nat (shape0 background))%Z ->
  (box_size self < Z.of_nat (shape1 background))%Z ->
  exists x_min y_min patch,
    _crop_image self background t p = Ok (Some patch, (p + 2)%nat) /\
    (x_min + Z.to_nat (box_size self) < shape1 background)%nat /\
    (y_min + Z.to_nat (box_size self) < shape0 background)%nat /\
    shape0 patch = Z.to_nat (box_size self) /\
    shape1 patch = Z.to_nat (box_size self) /\
    shape2 patch = shape2 background /\
    forall i j k, item patch i j k = item background (y_min + i) (x_min + j) k.
Proof.
  intros Ht [Hbox0 HboxH] HboxW. unfold _crop_image, bind.
  destruct (Z.geb_spec (box_size self) (Z.of_nat (shape0 background))); [lia |].
  destruct (Z.geb_spec (box_size self) (Z.of_nat (shape1 background))); [lia |].
  cbn [orb].
  destruct (random_randint_range t p 0 (Z.of_nat (shape1 background) - box_size self) Ht)
    as (x_min & -> & Hx); [lia |].
  destruct (random_randint_range t (S p) 0 (Z.of_nat (shape0 background) - box_size self) Ht)
    as (y_min & -> & Hy); [lia |].
  destruct (Z.gtb_spec y_min (y_min + box_size self)); [lia |].
  destruct (Z.gtb_spec x_min (x_min + box_size self)); [lia |].
  cbn [orb]. unfold ret.
  exists (Z.to_nat x_min), (Z.to_nat y_min). eexists.
  split; [repeat f_equal; lia |].
  unfold slice2, slice_bound. cbn [shape0 shape1 shape2 item].
  destruct (Z.ltb_spec y_min 0); [lia |].
  destruct (Z.ltb_spec x_min 0); [lia |].
  destruct (Z.ltb_spec (y_min + box_size self) 0); [lia |].
  destruct (Z.ltb_spec (x_min + box_size self) 0); [lia |].
  repeat split; try lia.
  intros i j k. f_equal; lia.
Qed.

(** The patch is missing exactly under one of the two guards. *)
Lemma crop_image_None_iff self background t p :
  valid_tape t ->
  (exists p', _crop_image self background t p = Ok (None, p')) <->
  (box_size self >= Z.of_nat (shape0 background) \/
   box_size self >= Z.of_nat (shape1 background) \/
   box_size self < 0)%Z.
Proof.
  intros Ht. split.
  - intros [p' Hnone].
    destruct (Z_lt_ge_dec (box_size self) (Z.of_nat (shape0 background))); [| auto].
    destruct (Z_lt_ge_dec (box_size self) (Z.of_nat (shape1 background))); [| auto].
    destruct (Z_lt_ge_dec (box_size self) 0); [auto |].
    destruct (crop_image_patch self background t p Ht) as (? & ? & ? & Hp & _);
      [lia | lia | congruence].
  - intros [H | [H | H]].
    + exists p. apply crop_image_too_small; auto.
    + exists p. apply crop_image_too_small; auto.
    + exists (p + 2)%nat. by apply crop_image_negative.
Qed.

(** With a pool that is not empty a path of the pool is drawn: its image
    is selected, or loading it fails. *)
Lemma selected_background_cases self t p :
  valid_tape t -> image_filepaths self <> [] ->
  (exists background, selected_background load_image self t p = Some background) \/
  (exists filepath e,
     In filepath (image_filepaths self) /\ load_image filepath = Raise e /\
     forall image, shape2 image = 4%nat ->
       AddCroppedBackground.call load_image self image t p = Raise e).
Proof.
  intros Ht Hne. unfold selected_background.
  destruct (random_randint_range t p 0 (Z.of_nat (length (image_filepaths self))) Ht)
    as (arg & Hdraw & Harg).
  { destruct (image_filepaths self); [done | simpl; lia]. }
  rewrite Hdraw.
  destruct (nth_error (image_filepaths self) (Z.to_nat arg)) as [filepath |] eqn:E.
  2: { apply nth_error_None in E. lia. }
  destruct (load_image filepath) as [background | e] eqn:Hload; [eauto |].
  right. exists filepath, e. split; [by eapply nth_error_In |]. split; [done |].
  intros image HC. unfold AddCroppedBackground.call, bind, lift, ret.
  rewrite HC. cbn [Nat.eqb negb]. cbv beta iota zeta.
  destruct (np_split3 image) as [foreground alpha].
  by rewrite Hdraw, E, Hload.
Qed.

(** What the processor computes once the background is selected. *)
Lemma cropped_call_selected self image background t p :
  shape2 image = 4%nat ->
  selected_background load_image self t p = Some background ->
  AddCroppedBackground.call load_image self image t p =
  match _crop_image self background t (S p) with
  | Ok (Some patch, p1) => at_position (weighted_sum image patch) p1
  | Ok (None, p1) =>
      match random_randint3 0 256 t p1 with
      | Ok (color, p2) =>
          at_position
            (weighted_sum image (color_plane (shape0 image) (shape1 image) color)) p2
      | Raise e => Raise e
      end
  | Raise e => Raise e
  end.
Proof.
  intros HC Hsel. unfold selected_background in Hsel.
  unfold AddCroppedBackground.call, weighted_sum, bind, lift, at_position, ret.
  rewrite HC. cbn [Nat.eqb negb]. cbv beta iota zeta.
  destruct (np_split3 image) as [foreground alpha].
  destruct (random_randint 0 _ t p) as [[arg p0] | e] eqn:Hdraw; [| done].
  assert (p0 = S p) as ->.
  { unfold random_randint in Hdraw.
    destruct (0 >=? _)%Z; [done | congruence]. }
  destruct (nth_error _ _) as [filepath |]; [| done].
  destruct (load_image filepath) as [loaded | e]; [| done].
  injection Hsel as <-.
  destruct (_crop_image self _ t (S p)) as [[[patch |] p1] | e]; [| | done].
  - destruct (np_multiply _ patch) as [b | e]; cbn [result_bind]; [| done].
    by destruct (np_multiply _ foreground) as [fg | e]; cbn [result_bind].
  - destruct (random_randint3 0 256 t p1) as [[color p2] | e]; [| done].
    destruct (np_multiply _ (color_plane _ _ color)) as [b | e]; cbn [result_bind]; [| done].
    by destruct (np_multiply _ foreground) as [fg | e]; cbn [result_bind].
Qed.

(** An empty pool makes the draw of the index fail. *)
Lemma cropped_call_empty_pool self image t p :
  shape2 image = 4%nat -> image_filepaths self = [] ->
  AddCroppedBackground.call load_image self image t p
  = Raise (ValueError (bounds_error 0)).
Proof.
  intros HC Hnil. unfold AddCroppedBackground.call, bind.
  rewrite HC, Hnil. cbn [Nat.eqb negb]. cbv beta iota zeta.
  by destruct (np_split3 image).
Qed.

Lemma weighted_sum_cases image background :
  shape2 image = 4%nat ->
  (exists out, weighted_sum image background = Ok out) \/
  weighted_sum image background = Raise (ValueError broadcast_msg).
Proof.
  intros HC.
  destruct (broadcast_dim (shape0 image) (shape0 background)) eqn:E0.
  2: { right. apply weighted_sum_raise; [done |]. left. by apply broadcast_dim_None. }
  destruct (broadcast_dim (shape1 image) (shape1 background)) eqn:E1.
  2: { right. apply weighted_sum_raise; [done |]. right; left. by apply broadcast_dim_None. }
  destruct (broadcast_dim 3 (shape2 background)) eqn:E2.
  2: { right. apply weighted_sum_raise; [done |]. right; right. by apply broadcast_dim_None. }
  left. apply weighted_sum_ok; [done | ..]; eapply broadcast_dim_Some; eauto.
Qed.

(** With a patch of the image's height and width cut from a three-channel
    background, every pixel is blended with the patch. *)
Lemma cropped_patch_blend self image background t p :
  valid_tape t -> shape2 image = 4%nat ->
  selected_background load_image self t p = Some background ->
  shape2 background = 3%nat ->
  shape0 image = Z.to_nat (box_size self) ->
  shape1 image = Z.to_nat (box_size self) ->
  (0 <= box_size self < Z.of_nat (shape0 background))%Z ->
  (box_size self < Z.of_nat (shape1 background))%Z ->
  exists out x_min y_min,
    AddCroppedBackground.call load_image self image t p = Ok (out, (p + 3)%nat) /\
    (x_min + shape1 image < shape1 background)%nat /\
    (y_min + shape0 image < shape0 background)%nat /\
    forall i j k, (i < shape0 image)%nat -> (j < shape1 image)%nat -> (k < 3)%nat ->
      item out i j k ==
      blend (item image i j 3 / 255) (item image i j k)
            (item background (y_min + i) (x_min + j) k).
Proof.
  intros Ht HC Hsel HCb HH HW HboxH HboxW.
  rewrite (cropped_call_selected _ _ _ _ _ HC Hsel).
  destruct (crop_image_patch self background t (S p) Ht HboxH HboxW)
    as (x_min & y_min & patch & -> & Hx & Hy & S0 & S1 & S2 & Hitem).
  rewrite <- HH in S0. rewrite <- HW in S1. rewrite HCb in S2.
  destruct (weighted_sum_blend image patch HC S0 S1 S2) as (out & -> & _ & _ & _ & Hout).
  exists out, x_min, y_min. cbn [at_position].
  split; [do 2 f_equal; lia |]. split; [lia |]. split; [lia |].
  intros i j k Hi Hj Hk. rewrite (Hout i j k Hi Hj Hk). by rewrite Hitem.
Qed.

(** With four channels the processor returns, or the pool is empty, or
    the selected image cannot be loaded, or numpy reports the shapes. *)
Lemma cropped_call_cases self image t p :
  valid_tape t -> shape2 image = 4%nat ->
  (exists out p', AddCroppedBackground.call load_image self image t p = Ok (out, p')) \/
  (image_filepaths self = [] /\
   AddCroppedBackground.call load_image self image t p
   = Raise (ValueError (bounds_error 0))) \/
  (exists filepath e,
     In filepath (image_filepaths self) /\ load_image filepath = Raise e /\
     AddCroppedBackground.call load_image self image t p = Raise e) \/
  AddCroppedBackground.call load_image self image t p = Raise (ValueError broadcast_msg).
Proof.
  intros Ht HC.
  destruct (image_filepaths self) as [| f fs] eqn:Hpool.
  { right; left. split; [done |]. by apply cropped_call_empty_pool. }
  destruct (selected_background_cases self t p Ht) as [[background Hsel] | Hfail];
    [by rewrite Hpool | |].
  2: { destruct Hfail as (filepath & e & Hin & Hload & Hcall).
       right; right; left. exists filepath, e. rewrite <- Hpool. auto. }
  rewrite (cropped_call_selected _ _ _ _ _ HC Hsel).
  assert (Hfallback : forall p1,
    (exists out p',
       match random_randint3 0 256 t p1 with
       | Ok (color, p2) =>
           at_position
             (weighted_sum image (color_plane (shape0 image) (shape1 image) color)) p2
       | Raise e => Raise e
       end = Ok (out, p')) \/
    match random_randint3 0 256 t p1 with
    | Ok (color, p2) =>
        at_position
          (weighted_sum image (color_plane (shape0 image) (shape1 image) color)) p2
    | Raise e => Raise e
    end = Raise (ValueError broadcast_msg)).
  { intros p1.
    destruct (random_randint3_range t p1 0 256 Ht) as (color & -> & _); [lia |].
    destruct (weighted_sum_cases image (color_plane (shape0 image) (shape1 image) color) HC)
      as [[out ->] | ->]; [left; eexists _, _; reflexivity | right; reflexivity]. }
  assert (Hclose : forall r : Result (ndarray * nat),
    (exists out p', r = Ok (out, p')) \/ r = Raise (ValueError broadcast_msg) ->
    (exists out p', r = Ok (out, p')) \/
    (f :: fs = [] /\ r = Raise (ValueError (bounds_error 0))) \/
    (exists filepath e, In filepath (f :: fs) /\ load_image filepath = Raise e /\ r = Raise e) \/
    r = Raise (ValueError broadcast_msg)) by (intros r [H | H]; auto).
  apply Hclose.
  destruct (Z_lt_ge_dec (box_size self) (Z.of_nat (shape0 background))) as [H0 | H0].
  2: { rewrite crop_image_too_small by auto. apply Hfallback. }
  destruct (Z_lt_ge_dec (box_size self) (Z.of_nat (shape1 background))) as [H1 | H1].
  2: { rewrite crop_image_too_small by auto. apply Hfallback. }
  destruct (Z_lt_ge_dec (box_size self) 0) as [Hneg | Hpos].
  { rewrite crop_image_negative by auto. apply Hfallback. }
  destruct (crop_image_patch self background t (S p) Ht) as (? & ? & patch & -> & _);
    [lia | lia |].
  destruct (weighted_sum_cases image patch HC)
    as [[out ->] | ->]; [left; eexists _, _; reflexivity | right; reflexivity].
Qed.

(** The alpha-mask error is raised before anything else. *)
Lemma cropped_call_no_alpha self image t p :
  shape2 image <> 4%nat ->
  AddCroppedBackground.call load_image self image t p = Raise (ValueError alpha_msg).
Proof.
  intros HC. unfold AddCroppedBackground.call.
  by destruct (Nat.eqb_spec (shape2 image) 4).
Qed.
End CroppedBackground.

Lemma plain_call_no_alpha background_color image t p :
  shape2 image <> 4%nat ->
  AddPlainBackground.call background_color image t p = Raise (ValueError alpha_msg).
Proof.
  intros HC. unfold AddPlainBackground.call.
  by destruct (Nat.eqb_spec (shape2 image) 4).
Qed.

Ltac half_tape_is_valid :=
  intros ?; unfold half_tape; split; [discriminate | reflexivity].

(** ** The claims on compositing *)

(** C1 (the code departs from the claim).  On the image of the scenario and
    the configured colour (10, 20, 30), the pixel of alpha 255 comes out as
    the foreground plus the colour, not as the foreground, and the pixel of
    alpha 128 as its weighted foreground plus the whole colour: with a
    configured colour the plane is added without the weight [1 - alpha]. *)
Theorem plain_configured_color_not_blended (t : Tape) (p : nat) :
  exists out,
    AddPlainBackground.call (Some (10, 20, 30)%Z) scenario_image t p = Ok (out, p) /\
    forall k, (k < 3)%nat ->
      item out 0 0 k ==
        item scenario_image 0 0 k + inject_Z (channel (10, 20, 30)%Z k) /\
      ~ item out 0 0 k ==
        blend (item scenario_image 0 0 3 / 255) (item scenario_image 0 0 k)
              (inject_Z (channel (10, 20, 30)%Z k)) /\
      ~ item out 1 0 k ==
        blend (item scenario_image 1 0 3 / 255) (item scenario_image 1 0 k)
              (inject_Z (channel (10, 20, 30)%Z k)).
Proof.
  destruct (plain_configured_sum (10, 20, 30)%Z scenario_image t p eq_refl)
    as (out & Hcall & _ & _ & _ & Hitem).
  exists out. split; [exact Hcall |].
  intros k Hk.
  rewrite (Hitem 0%nat 0%nat k), (Hitem 1%nat 0%nat k) by (simpl; lia).
  destruct k as [| [| [| k]]]; [| | | lia];
    (split; [reflexivity | split; vm_compute; discriminate]).
Qed.

(** C6, as the claim has it, fails: a four-channel image for which
    [AddCroppedBackground.call] raises the shape error of numpy's
    broadcasting (a 2 x 2 patch against a 3 x 3 image). *)
Lemma cropped_call_shape_error_with_alpha :
  shape2 example_image = 4%nat /\
  AddCroppedBackground.call example_load_image (example_pool 2) example_image half_tape 0%nat
  = Raise (ValueError broadcast_msg).
Proof. split; reflexivity. Qed.

(** C6 (amended).  Both processors raise the alpha-mask [ValueError] exactly
    when the image does not have four channels (the image library is taken
    not to raise that very message when it loads a background of the pool).
    With four channels [AddPlainBackground.call] returns an image;
    [AddCroppedBackground.call] returns an image, or fails on an empty pool
    with the [ValueError] of [randint] ('high <= 0'), or passes on the
    exception of a background that cannot be loaded, or fails with numpy's
    [ValueError] on shapes that do not broadcast.  It does return when a
    background is selected and loaded and its plane broadcasts against the
    image: always when the crop is abandoned, and for a patch when the crop
    size is compatible with the height and the width of the image and the
    background has one or three channels. *)
Theorem alpha_mask_error_iff (load_image : string -> Result ndarray)
    (self : AddCroppedBackground.config) (background_color : option (Z * Z * Z))
    (image : ndarray) (t : Tape) (p : nat) :
  valid_tape t ->
  (forall filepath, In filepath (AddCroppedBackground.image_filepaths self) ->
     load_image filepath <> Raise (ValueError alpha_msg)) ->
  (AddPlainBackground.call background_color image t p = Raise (ValueError alpha_msg)
   <-> shape2 image <> 4%nat) /\
  (AddCroppedBackground.call load_image self image t p = Raise (ValueError alpha_msg)
   <-> shape2 image <> 4%nat) /\
  (shape2 image = 4%nat ->
   exists out p', AddPlainBackground.call background_color image t p = Ok (out, p')) /\
  (shape2 image = 4%nat ->
   (exists out p', AddCroppedBackground.call load_image self image t p = Ok (out, p')) \/
   (AddCroppedBackground.image_filepaths self = [] /\
    AddCroppedBackground.call load_image self image t p = Raise (ValueError "high <= 0")) \/
   (exists filepath e,
      In filepath (AddCroppedBackground.image_filepaths self) /\
      load_image filepath = Raise e /\
      AddCroppedBackground.call load_image self image t p = Raise e) \/
   AddCroppedBackground.call load_image self image t p = Raise (ValueError broadcast_msg)) /\
  (shape2 image = 4%nat ->
   forall background,
     selected_background load_image self t p = Some background ->
     let box_size := AddCroppedBackground.box_size self in
     (box_size >= Z.of_nat (shape0 background) \/
      box_size >= Z.of_nat (shape1 background) \/ box_size < 0)%Z \/
     (compatible (shape0 image) (Z.to_nat box_size) /\
      compatible (shape1 image) (Z.to_nat box_size) /\
      compatible 3 (shape2 background)) ->
     exists out p', AddCroppedBackground.call load_image self image t p = Ok (out, p')).
Proof.
  intros Ht Hload.
  assert (Hplain : shape2 image = 4%nat ->
    exists out p', AddPlainBackground.call background_color image t p = Ok (out, p')).
  { intros HC. destruct background_color as [color |].
    - destruct (plain_configured_sum color image t p HC) as (out & -> & _). eauto.
    - destruct (plain_random_blend image t p Ht HC) as (out & _ & -> & _). eauto. }
  pose proof (cropped_call_cases load_image self image t p Ht) as Hcases.
  split; [| split; [| split; [| split]]]; try assumption.
  - split.
    + intros Hraise HC. destruct (Hplain HC) as (out & p' & Hok). congruence.
    + apply plain_call_no_alpha.
  - split.
    + intros Hraise HC.
      destruct (Hcases HC)
        as [(out & p' & Hok) | [[_ Hr] | [(filepath & e & Hin & He & Hr) | Hr]]].
      * congruence.
      * rewrite Hraise in Hr. discriminate.
      * rewrite Hraise in Hr. injection Hr as <-. by apply (Hload filepath).
      * rewrite Hraise in Hr. discriminate.
    + apply cropped_call_no_alpha.
  - intros HC background Hsel box_size Hcond.
    rewrite (cropped_call_selected _ _ _ _ _ _ HC Hsel).
    assert (Hfallback : forall p1,
      exists out p',
        match random_randint3 0 256 t p1 with
        | Ok (color, p2) =>
            at_position
              (weighted_sum image (color_plane (shape0 image) (shape1 image) color)) p2
        | Raise e => Raise e
        end = Ok (out, p')).
    { intros p1.
      destruct (random_randint3_range t p1 0 256 Ht) as (color & -> & _); [lia |].
      destruct (color_plane_shape (shape0 image) (shape1 image) color) as (S0 & S1 & S2).
      destruct (weighted_sum_blend image _ HC S0 S1 S2) as (out & -> & _). simpl. eauto. }
    destruct (Z_lt_ge_dec box_size (Z.of_nat (shape0 background))) as [H0 | H0].
    2: { rewrite crop_image_too_small by auto. apply Hfallback. }
    destruct (Z_lt_ge_dec box_size (Z.of_nat (shape1 background))) as [H1 | H1].
    2: { rewrite crop_image_too_small by auto. apply Hfallback. }
    destruct (Z_lt_ge_dec box_size 0) as [Hneg | Hpos].
    { rewrite crop_image_negative by auto. apply Hfallback. }
    destruct Hcond as [Hsmall | (C0 & C1 & C2)]; [unfold box_size in *; lia |].
    destruct (crop_image_patch self background t (S p) Ht)
      as (x_min & y_min & patch & -> & _ & _ & S0 & S1 & S2 & _);
      [unfold box_size in *; lia | unfold box_size in *; lia |].
    destruct (weighted_sum_ok image patch HC) as [out ->];
      [by rewrite S0 | by rewrite S1 | by rewrite S2 |].
    simpl. eauto.
Qed.

Lemma alpha_mask_error_iff_witness :
  valid_tape half_tape /\
  (forall filepath, In filepath (AddCroppedBackground.image_filepaths (example_pool 3)) ->
     example_load_image filepath <> Raise (ValueError alpha_msg)) /\
  exists out p',
    AddCroppedBackground.call example_load_image (example_pool 3) example_image half_tape 0%nat
    = Ok (out, p').
Proof.
  assert (Ht : valid_tape half_tape) by half_tape_is_valid.
  assert (Hload : forall filepath,
            In filepath (AddCroppedBackground.image_filepaths (example_pool 3)) ->
            example_load_image filepath <> Raise (ValueError alpha_msg))
    by (intros filepath _; discriminate).
  split; [exact Ht |]. split; [exact Hload |].
  destruct (alpha_mask_error_iff example_load_image (example_pool 3) None example_image
              half_tape 0%nat Ht Hload) as (_ & _ & _ & _ & Hreturns).
  apply (Hreturns eq_refl example_background eq_refl).
  right. unfold compatible. simpl. auto.
Defined.

(** C7, as the claim has it, fails: a background of exactly the requested
    size is not smaller than the crop in either dimension, and yet no patch
    is cut. *)
Lemma crop_abandoned_on_equal_size :
  ~ (Z.of_nat (shape0 example_background) < 4 \/
     Z.of_nat (shape1 example_background) < 4)%Z /\
  AddCroppedBackground._crop_image (example_pool 4) example_background half_tape 0%nat
  = Ok (None, 0%nat).
Proof. split; [simpl; lia | reflexivity]. Qed.

(** C7 (amended).  [_crop_image] yields no patch exactly when the crop size
    is at least the height or the width of the selected background, or is
    negative.  In that case [call] raises nothing: it draws a colour and
    blends every pixel with it.  Otherwise the patch is a square of the
    configured size lying inside the background, and [call] computes its
    weighted sum with that patch. *)
Theorem crop_or_fallback (load_image : string -> Result ndarray)
    (self : AddCroppedBackground.config) (image background : ndarray)
    (t : Tape) (p : nat) :
  valid_tape t ->
  shape2 image = 4%nat ->
  selected_background load_image self t p = Some background ->
  let box_size := AddCroppedBackground.box_size self in
  let abandoned :=
    (box_size >= Z.of_nat (shape0 background) \/
     box_size >= Z.of_nat (shape1 background) \/ box_size < 0)%Z in
  ((exists p', AddCroppedBackground._crop_image self background t (S p) = Ok (None, p'))
   <-> abandoned) /\
  (abandoned ->
   exists p1 color out,
     AddCroppedBackground._crop_image self background t (S p) = Ok (None, p1) /\
     random_randint3 0 256 t p1 = Ok (color, (p1 + 3)%nat) /\
     AddCroppedBackground.call load_image self image t p = Ok (out, (p1 + 3)%nat) /\
     forall i j k, (i < shape0 image)%nat -> (j < shape1 image)%nat -> (k < 3)%nat ->
       item out i j k ==
       blend (item image i j 3 / 255) (item image i j k) (inject_Z (channel color k))) /\
  (~ abandoned ->
   exists x_min y_min patch,
     AddCroppedBackground._crop_image self background t (S p)
     = Ok (Some patch, (p + 3)%nat) /\
     (x_min + Z.to_nat box_size < shape1 background)%nat /\
     (y_min + Z.to_nat box_size < shape0 background)%nat /\
     shape0 patch = Z.to_nat box_size /\
     shape1 patch = Z.to_nat box_size /\
     shape2 patch = shape2 background /\
     (forall i j k, item patch i j k = item background (y_min + i) (x_min + j) k) /\
     AddCroppedBackground.call load_image self image t p
     = at_position (weighted_sum image patch) (p + 3)).
Proof.
  intros Ht HC Hsel box_size abandoned.
  pose proof (crop_image_None_iff self background t (S p) Ht) as Hiff.
  split; [exact Hiff |]. split.
  - intros Habandoned. apply Hiff in Habandoned as [p1 Hnone].
    destruct (random_randint3_range t p1 0 256 Ht) as (color & Hcolor & _); [lia |].
    destruct (color_plane_shape (shape0 image) (shape1 image) color) as (S0 & S1 & S2).
    destruct (weighted_sum_blend image _ HC S0 S1 S2) as (out & Hsum & _ & _ & _ & Hitem).
    exists p1, color, out. split; [exact Hnone |]. split; [exact Hcolor |]. split.
    + rewrite (cropped_call_selected _ _ _ _ _ _ HC Hsel), Hnone, Hcolor, Hsum.
      reflexivity.
    + intros i j k Hi Hj Hk. rewrite (Hitem i j k Hi Hj Hk).
      unfold blend. by rewrite color_plane_item.
  - intros Hkept.
    destruct (crop_image_patch self background t (S p) Ht)
      as (x_min & y_min & patch & Hpatch & Hx & Hy & S0 & S1 & S2 & Hitem);
      [unfold abandoned, box_size in *; lia | unfold abandoned, box_size in *; lia |].
    exists x_min, y_min, patch.
    replace (p + 3)%nat with (S p + 2)%nat by lia.
    repeat (split; [assumption |]).
    by rewrite (cropped_call_selected _ _ _ _ _ _ HC Hsel), Hpatch.
Qed.

Lemma crop_or_fallback_witness :
  valid_tape half_tape /\
  shape2 example_image = 4%nat /\
  selected_background example_load_image (example_pool 4) half_tape 0 = Some example_background /\
  exists p',
    AddCroppedBackground._crop_image (example_pool 4) example_background half_tape 1%nat
    = Ok (None, p').
Proof.
  assert (Ht : valid_tape half_tape) by half_tape_is_valid.
  split; [exact Ht |]. split; [reflexivity |]. split; [reflexivity |].
  apply (proj1 (crop_or_fallback example_load_image (example_pool 4) example_image
                  example_background half_tape 0%nat Ht eq_refl eq_refl)).
  left. simpl. lia.
Defined.

(** ** Normalisation *)

(** C9.  Denormalising a normalised image gives the image back, item by
    item, in exact arithmetic; in binary64 arithmetic the round trip is
    exact on each of the 256 values of an 8-bit pixel. *)
Theorem denormalize_normalize_roundtrip :
  (forall x : ndarray, array_eq (DenormalizeImage.call (NormalizeImage.call x)) x) /\
  roundtrip_exact_below 256 = true.
Proof.
  split.
  - intros x. unfold array_eq, DenormalizeImage.call, NormalizeImage.call, amap. simpl.
    repeat split. intros i j k _ _ _. field.
  - vm_compute. reflexivity.
Qed.

(** ** RandomImageCrop *)

Section CropSearch.
Import RandomImageCrop.
Implicit Types (image out : ndarray) (t : Tape) (p count : nat).

(** A trial that returns, returns the image it was given. *)
Lemma trial_returns_input image t p out p' :
  trial image t p = Ok (Some out, p') -> out = image.
Proof.
  unfold trial, bind.
  destruct (trial_locals image t p) as [[[[rect current_image] |] p1] | e];
    unfold ret; congruence.
Qed.



Lemma trials_returns_input n image t p out count p' :
  trials n image t p = Ok (Some out, count, p') -> out = image.
Proof.
  revert p count p'. induction n as [| n IH]; intros p count p'; simpl.
  - unfold ret. done.
  - unfold bind at 1.
    destruct (trial image t p) as [[[out' |] p1] | e] eqn:Etrial; [| | done].
    + unfold ret. intros [= <- <- <-]. by apply trial_returns_input in Etrial.
    + unfold bind, ret.
      destruct (trials n image t p1) as [[[r' c'] p2] | e] eqn:E; [| done].
      intros [= -> <- <-]. by apply IH in E.
Qed.

(** Whatever [call] returns is the image it was given. *)
Lemma call_returns_input fuel image t p out count p' :
  call fuel image t p = Some (Ok (out, count, p')) -> out = image.
Proof.
  revert p count p'. induction fuel as [| fuel IH]; intros p count p'; cbn [call];
    [done |].
  destruct (random_choice sample_options t p) as [[[[min_iou max_iou] |] p1] | e];
    [| congruence | congruence].
  destruct (trials 50 image t p1) as [[[[out' |] c] p2] | e] eqn:E; [| | congruence].
  - intros [= <- <- <-]. by apply trials_returns_input in E.
  - destruct (call fuel image t p2) as [[[[out' c'] p3] | e] |] eqn:Ecall;
      [| congruence | congruence].
    intros [= <- <- <-]. by apply IH in Ecall.
Qed.



(** In an image at least seven times higher than wide no trial passes the
    test on the aspect ratio. *)
Lemma narrow_trial_rejected image t p :
  valid_tape t ->
  (0 < shape1 image)%nat ->
  (7 * shape1 image <= shape0 image)%nat ->
  trial image t p = Ok (None, (p + 2)%nat).
Proof.
  intros Ht Hw Hh. unfold trial, trial_locals, bind, random_uniform, ret, raise.
  set (W := inject_Z (Z.of_nat (shape1 image))).
  set (H := inject_Z (Z.of_nat (shape0 image))).
  set (w := (3 # 10) * W + (W - (3 # 10) * W) * t p).
  set (h := (3 # 10) * H + (H - (3 # 10) * H) * t (S p)).
  destruct (Ht p) as [Hu0 Hu1]. destruct (Ht (S p)) as [Hv0 Hv1].
  assert (HW : 1 <= W).
  { unfold W, Qle. simpl. lia. }
  assert (HH : 7 * W <= H).
  { unfold W, H, Qle. simpl. lia. }
  assert (Hwpos : 0 < w) by (unfold w; nra).
  assert (Hwlt : w < W) by (unfold w; nra).
  assert (Hhge : (3 # 10) * H <= h) by (unfold h; nra).
  destruct (Qeq_bool w 0) eqn:Ez.
  { apply Qeq_bool_iff in Ez. rewrite Ez in Hwpos. by apply Qlt_irrefl in Hwpos. }
  assert (Hratio : Qlt_bool 2 (h / w) = true).
  { unfold Qlt_bool. apply negb_true_iff.
    destruct (Qle_bool (h / w) 2) eqn:E; [| done].
    apply Qle_bool_iff in E.
    apply (Qmult_le_compat_r _ _ w) in E; [| by apply Qlt_le_weak].
    assert (Hdiv : h / w * w == h) by (field; intros Hz; rewrite Hz in Hwpos; by apply Qlt_irrefl in Hwpos).
    rewrite Hdiv in E. nra. }
  rewrite Hratio, orb_true_r. do 2 f_equal. lia.
Qed.

Lemma rejected_trials n image t p :
  (forall q, trial image t q = Ok (None, (q + 2)%nat)) ->
  trials n image t p = Ok (None, n, (p + 2 * n)%nat).
Proof.
  intros Hrej. revert p. induction n as [| n IH]; intros p; simpl.
  - unfold ret. do 2 f_equal. lia.
  - unfold bind at 1. rewrite Hrej. unfold bind. rewrite IH. unfold ret.
    do 2 f_equal. lia.
Qed.
End CropSearch.

(** ** The rectangle of an accepted trial *)

(** Truncation can push the integer rectangle out of the aspect range: in
    a 3 x 5 image these draws give [w = 3.9] and [h = 1.96], a ratio above
    one half, and a crop one pixel high and three pixels wide. *)
Lemma integer_rect_aspect_example :
  let t : Tape := fun k =>
    match k with O => 24 # 35 | 1%nat => 53 # 105 | _ => 1 # 2 end in
  let image := {| shape0 := 3; shape1 := 5; shape2 := 3; item := fun _ _ _ => 0 |} in
  valid_tape t /\
  exists current_image,
    RandomImageCrop.trial_locals image t 0%nat = Ok (Some ((1, 1, 4, 2)%Z, current_image), 4%nat) /\
    shape0 current_image = 1%nat /\ shape1 current_image = 3%nat.
Proof.
  intros t image. split.
  - intros [| [| k]]; simpl; split; (discriminate || reflexivity).
  - eexists. split; [vm_compute; reflexivity |]. split; reflexivity.
Qed.







(** C3 (the code departs from the claim).  Whatever the call returns is the
    image it was given, never the crop.  In [square_image], on the tape that
    always delivers one half, the first trial passes the test on the aspect
    ratio, builds the rectangle (1, 1, 3, 3) and cuts the 2 x 2 crop into
    [current_image]; the call returns the 4 x 4 image. *)
Theorem accepted_trial_returns_uncropped_image :
  (forall fuel image t p out count p',
     RandomImageCrop.call fuel image t p = Some (Ok (out, count, p')) -> out = image) /\
  RandomImageCrop.trial_locals square_image half_tape 1%nat
  = Ok (Some ((1, 1, 3, 3)%Z, RandomImageCrop.crop square_image (1, 1, 3, 3)%Z), 5%nat) /\
  shape0 (RandomImageCrop.crop square_image (1, 1, 3, 3)%Z) = 2%nat /\
  shape1 (RandomImageCrop.crop square_image (1, 1, 3, 3)%Z) = 2%nat /\
  RandomImageCrop.call 1 square_image half_tape 0%nat
  = Some (Ok (square_image, 1%nat, 5%nat)) /\
  shape0 square_image = 4%nat /\ shape1 square_image = 4%nat.
Proof.
  split; [intros *; apply call_returns_input |].
  repeat split; reflexivity.
Qed.

(** ** AddOcclusion *)

Section Occlusion.
Import AddOcclusion.
Local Open Scope R_scope.
Variable draw_filled_polygon : ndarray -> list (Z * Z) -> Z * Z * Z -> ndarray.
Implicit Types (t : RTape) (p : nat) (image : ndarray).

(** The integer part is characterised by its unit interval. *)
Lemma Int_part_iff (x : R) (z : Z) : Int_part x = z <-> IZR z <= x < IZR z + 1.
Proof.
  split.
  - intros <-. destruct (base_Int_part x). lra.
  - intros Hz. symmetry. apply Int_part_spec. lra.
Qed.

Lemma randint_iff (low high : Z) (u : R) (z : Z) :
  randint low high u = z <->
  IZR (z - low) <= IZR (high - low) * u < IZR (z - low) + 1.
Proof.
  unfold randint. rewrite <- Int_part_iff. lia.
Qed.

Lemma randint_range (low high : Z) (u : R) :
  (low < high)%Z -> 0 <= u < 1 -> (low <= randint low high u < high)%Z.
Proof.
  intros Hlt [Hu0 Hu1].
  destruct (proj1 (randint_iff low high u _) eq_refl) as [Hlo Hhi].
  assert (Hn : 0 < IZR (high - low)) by (apply (IZR_lt 0); lia).
  split.
  - assert (H : IZR (randint low high u - low) + 1 > IZR 0) by (simpl; nra).
    rewrite <- plus_IZR in H. apply lt_IZR in H. lia.
  - assert (H : IZR (randint low high u - low) < IZR (high - low)) by nra.
    apply lt_IZR in H. lia.
Qed.

Lemma num_vertices_range t p :
  valid_rtape t -> (3 <= num_vertices t p <= 6)%nat.
Proof.
  intros Ht. unfold num_vertices.
  pose proof (randint_range 3 7 (t p) ltac:(lia) (Ht p)). lia.
Qed.


Lemma fill_length {A} (f : nat -> A) (d : A) (n : nat) (l : list nat) :
  length (foldl (fun vertices vertex_arg => <[vertex_arg := f vertex_arg]> vertices)
                (replicate n d) l) = n.
Proof.
  rewrite <- (length_replicate n d) at 2.
  generalize (replicate n d). induction l as [| x l IH]; intros vs; [done |].
  cbn [foldl]. by rewrite IH, length_insert.
Qed.

(** The loop fills the array from the front. *)
Lemma fill_lookup {A} (f : nat -> A) (d : A) (n m i : nat) :
  (m <= n)%nat ->
  foldl (fun vertices vertex_arg => <[vertex_arg := f vertex_arg]> vertices)
        (replicate n d) (seq 0 m) !! i
  = if (i <? m)%nat then Some (f i) else replicate n d !! i.
Proof.
  induction m as [| m IH]; intros Hm; [done |].
  rewrite seq_S, foldl_app. cbn [foldl Nat.add].
  destruct (decide (i = m)) as [-> | Hne].
  - rewrite list_lookup_insert_eq.
    + destruct (Nat.ltb_spec m (S m)); [done | lia].
    + rewrite fill_length. lia.
  - rewrite list_lookup_insert_ne by done. rewrite IH by lia.
    destruct (Nat.ltb_spec i m), (Nat.ltb_spec i (S m)); try done; lia.
Qed.

Lemma polygon_lookup image max_radius_scale t p i :
  (i < num_vertices t p)%nat ->
  polygon image max_radius_scale t p !! i = Some (make_vertex image max_radius_scale t p i).
Proof.
  intros Hi. unfold polygon. rewrite fill_lookup by lia.
  destruct (Nat.ltb_spec i (num_vertices t p)); [done | lia].
Qed.

Lemma vertex_radius_range image max_radius_scale t p i :
  valid_rtape t -> 0 <= max_radius_scale ->
  0 <= vertex_radius image max_radius_scale t p i
    <= INR (Nat.max (shape0 image) (shape1 image)) * max_radius_scale.
Proof.
  intros Ht Hscale. unfold vertex_radius, uniform, max_distance.
  pose proof (pos_INR (Nat.max (shape0 image) (shape1 image))) as HM.
  destruct (Ht (p + 4 + i)%nat) as [Hu0 Hu1].
  set (d := INR (Nat.max (shape0 image) (shape1 image)) * max_radius_scale).
  assert (Hd : 0 <= d) by (unfold d; nra).
  split; nra.
Qed.


End Occlusion.



(** ** CastImage *)

(** C10.  When the base class defines neither an attribute [dtype] nor a
    [__getattr__] hook, the constructor raises [AttributeError] for every
    argument: the right-hand side of [self.dtype = self.dtype] is read from
    an instance that has nothing set and from a class that does not define
    it.  No instance is ever built. *)
Theorem cast_image_cannot_be_constructed (Processor : PyClass) (dtype : PyValue) :
  class_namespace Processor !! "dtype" = None ->
  getattr_hook Processor = None ->
  CastImage.construct Processor dtype = Raise (AttributeError "dtype") /\
  ~ exists self, CastImage.construct Processor dtype = Ok self.
Proof.
  intros Hbase Hhook.
  assert (Hraise : CastImage.construct Processor dtype = Raise (AttributeError "dtype")).
  { unfold CastImage.construct, CastImage.__init__, getattr, CastImage.new,
      CastImage.class.
    cbn [instance_dict class_of class_namespace getattr_hook]. rewrite lookup_empty.
    rewrite !lookup_insert_ne by done. by rewrite Hbase, Hhook. }
  split; [exact Hraise |]. intros [self Hok]. congruence.
Qed.

Lemma cast_image_cannot_be_constructed_witness :
  class_namespace example_Processor !! "dtype" = None /\
  getattr_hook example_Processor = None /\
  CastImage.construct example_Processor (PyStr "float32")
  = Raise (AttributeError "dtype").
Proof.
  assert (Hbase : class_namespace example_Processor !! "dtype" = None) by reflexivity.
  assert (Hhook : getattr_hook example_Processor = None) by reflexivity.
  split; [exact Hbase |]. split; [exact Hhook |].
  exact (proj1 (cast_image_cannot_be_constructed example_Processor
                  (PyStr "float32") Hbase Hhook)).
Defined.

(** ** Loops that may raise *)

Section MapResult.
Context {A B : Type} (f : A -> Result B).

Lemma map_result_Ok (items : list A) (ys : list B) :
  map_result f items = Ok ys ->
  length ys = length items /\
  forall i x, items !! i = Some x -> exists y, ys !! i = Some y /\ f x = Ok y.
Proof.
  revert ys. induction items as [| x items IH]; intros ys; simpl.
  - intros [= <-]. split; [done |]. intros i x Hx. by rewrite lookup_nil in Hx.
  - destruct (f x) as [y | e] eqn:Hfx; simpl; [| done].
    destruct (map_result f items) as [ys' | e]; simpl; [| done].
    intros [= <-]. destruct (IH ys' eq_refl) as [Hlen Hlookup].
    split; [simpl; by rewrite Hlen |].
    intros [| i] x' Hx'; simpl in *.
    + injection Hx' as <-. eauto.
    + by apply Hlookup.
Qed.

Lemma map_result_total (items : list A) :
  (forall i x, items !! i = Some x -> exists y, f x = Ok y) ->
  exists ys, map_result f items = Ok ys.
Proof.
  induction items as [| x items IH]; intros Hall; simpl; [eauto |].
  destruct (Hall 0%nat x eq_refl) as [y ->]. simpl.
  destruct IH as [ys ->]; [| simpl; eauto].
  intros i x' Hx'. by apply (Hall (S i)).
Qed.
End MapResult.

(** A failure inside a loop leaves it at once. *)
Lemma map_result_first_error {A B} (f : A -> Result B) (items : list A)
    (i : nat) (x : A) (e : PyError) :
  items !! i = Some x ->
  f x = Raise e ->
  (forall j y, (j < i)%nat -> items !! j = Some y -> exists z, f y = Ok z) ->
  map_result f items = Raise e.
Proof.
  revert i. induction items as [| y items IH]; intros i Hx Hfx Hbefore.
  - by rewrite lookup_nil in Hx.
  - destruct i as [| i]; simpl in *.
    + injection Hx as ->. by rewrite Hfx.
    + destruct (Hbefore 0%nat y ltac:(lia) eq_refl) as [z ->]. simpl.
      rewrite (IH i Hx Hfx); [done |].
      intros j y' Hj Hy'. apply (Hbefore (S j) y'); [lia | done].
Qed.

Lemma for_each_invariant {A S} (P : S -> Prop) (body : S -> A -> Result S)
    (items : list A) (s s' : S) :
  (forall s x s', P s -> body s x = Ok s' -> P s') ->
  P s -> for_each body items s = Ok s' -> P s'.
Proof.
  intros Hbody. revert s. induction items as [| x items IH]; intros s Hs; simpl.
  - by intros [= <-].
  - destruct (body s x) as [s1 |] eqn:Hstep; simpl; [| done].
    apply IH. by eapply Hbody.
Qed.

(** ** HandKeypoints *)

Section Loader.
Import HandKeypoints.
Variable listdir : string -> Result (list string).
Variable load_image : string -> Result ndarray.
Variable resize_image : ndarray -> nat * nat -> Result ndarray.
Variable json_load : string -> Result json.

(** With a single directory, the loop collects the two kinds of files in
    listing order. *)
Lemma load_paths_loop dir files image_paths label_paths :
  for_each (add_file (PathStr dir)) files (image_paths, label_paths)
  = Ok (image_paths ++ map (posix_join dir) (files_with_ext ".jpg" files),
        label_paths ++ map (posix_join dir) (files_with_ext ".json" files)).
Proof.
  unfold files_with_ext. revert image_paths label_paths.
  induction files as [| file files IH]; intros image_paths label_paths; simpl.
  - by rewrite !app_nil_r.
  - destruct (String.eqb_spec (snd (splitext file)) ".jpg") as [Hjpg | Hjpg].
    + rewrite Hjpg. simpl. rewrite IH. by rewrite <- app_assoc.
    + destruct (String.eqb_spec (snd (splitext file)) ".json") as [Hjson | Hjson];
        simpl; rewrite IH; [by rewrite <- app_assoc | done].
Qed.

Lemma load_paths_directory dir files :
  listdir dir = Ok files ->
  _load_paths listdir (PathStr dir)
  = Ok (map (posix_join dir) (files_with_ext ".jpg" files),
        map (posix_join dir) (files_with_ext ".json" files)).
Proof. intros Hdir. unfold _load_paths. rewrite Hdir. simpl. by rewrite load_paths_loop. Qed.

Lemma load_paths_directory_error dir e :
  listdir dir = Raise e -> _load_paths listdir (PathStr dir) = Raise e.
Proof. intros Hdir. unfold _load_paths. by rewrite Hdir. Qed.

(** With a list of directories, the first collected file makes
    [os.path.join] raise; without any, both lists are empty. *)
Lemma load_paths_list_loop folders files paths :
  for_each (add_file (PathList folders)) files paths
  = if existsb is_data_file files then Raise path_type_error else Ok paths.
Proof.
  induction files as [| file files IH]; simpl; [done |].
  unfold add_file at 1, is_data_file at 1. destruct paths as [image_paths label_paths].
  destruct (String.eqb (snd (splitext file)) ".jpg"); simpl; [done |].
  destruct (String.eqb (snd (splitext file)) ".json"); simpl; [done |].
  exact IH.
Qed.

(** Whatever the file system does, a list of directories yields no path:
    the loop ends with the lists it started from, with the [TypeError] of
    the join, or with the error of a directory that cannot be listed. *)
Lemma load_paths_folders_loop joined folders start :
  let loop :=
    for_each (fun paths folder =>
                result_bind (listdir folder) (fun files =>
                for_each (add_file (PathList joined)) files paths))
             folders start in
  (forall paths, loop = Ok paths -> paths = start) /\
  (forall e, loop = Raise e ->
     e = path_type_error \/ exists folder, In folder folders /\ listdir folder = Raise e).
Proof.
  induction folders as [| folder rest IH]; simpl.
  - split; [by intros paths [= <-] | by intros e].
  - destruct (listdir folder) as [files | e0] eqn:Hdir; simpl.
    2: { split; [done |]. intros e [= <-]. right. exists folder. auto. }
    rewrite load_paths_list_loop.
    destruct (existsb is_data_file files); simpl.
    { split; [done |]. intros e [= <-]. by left. }
    destruct IH as [IHok IHraise]. split; [exact IHok |].
    intros e He. destruct (IHraise e He) as [-> | (other & Hin & Hother)]; [by left |].
    right. exists other. auto.
Qed.

Lemma to_list_of_dictionaries_Ok hands keypoints dataset :
  _to_list_of_dictionaries hands (Some keypoints) = Ok dataset ->
  length dataset = length hands /\
  forall i hand, hands !! i = Some hand ->
    exists k, keypoints !! i = Some k /\
      dataset !! i
      = Some (<["keypoints" := FKeypoints k]> (<["image" := FImage hand]> ∅)).
Proof.
  unfold _to_list_of_dictionaries. intros Hmap.
  apply map_result_Ok in Hmap as [Hlen Hlookup].
  rewrite length_seq in Hlen. split; [exact Hlen |].
  intros i hand Hhand.
  destruct (Hlookup i i) as (sample & Hsample & Hmake).
  { apply lookup_seq. split; [done |]. by apply lookup_lt_Some in Hhand. }
  unfold make_sample in Hmake. rewrite Hhand in Hmake.
  destruct (keypoints !! i) as [k |]; [| done].
  injection Hmake as <-. eauto.
Qed.

(** *** The images *)

(** One pass of the loop stores the image in the slot of its index. *)
Lemma load_hand_stored self hands arg image_path :
  hands !! arg
  = Some (np_zeros (fst (fst (image_size self))) (snd (fst (image_size self)))
                   (snd (image_size self))) ->
  load_hand load_image resize_image self hands (arg, image_path)
  = result_bind (stored_image load_image resize_image (image_size self) image_path)
                (setitem hands arg).
Proof.
  intros Hslot. unfold load_hand, stored_image.
  destruct (load_image image_path) as [image | e]; simpl; [| done].
  destruct (resize_image image _) as [resized | e]; simpl; [| done].
  by rewrite Hslot.
Qed.

Lemma load_images_loop self done image_paths :
  for_each (load_hand load_image resize_image self)
    (combine (seq (length done) (length image_paths)) image_paths)
    (done ++ replicate (length image_paths)
               (np_zeros (fst (fst (image_size self))) (snd (fst (image_size self)))
                         (snd (image_size self))))
  = result_bind
      (map_result (stored_image load_image resize_image (image_size self)) image_paths)
      (fun stored => Ok (done ++ stored)).
Proof.
  revert done. induction image_paths as [| image_path rest IH]; intros done.
  - reflexivity.
  - cbn [length seq combine replicate for_each map_result].
    rewrite load_hand_stored by (by apply list_lookup_middle).
    destruct (stored_image load_image resize_image (image_size self) image_path)
      as [hand | e]; cbn [result_bind]; [| done].
    unfold setitem. rewrite list_lookup_middle by done. cbn [result_bind].
    rewrite insert_app_r_alt by lia. rewrite Nat.sub_diag. cbn [insert list_insert].
    rewrite (cons_middle hand done), app_assoc.
    specialize (IH (done ++ [hand])). rewrite length_app in IH. cbn [length] in IH.
    rewrite Nat.add_1_r in IH. rewrite IH.
    destruct (map_result _ rest) as [stored | e]; cbn [result_bind]; [| done].
    by rewrite <- app_assoc.
Qed.

(** The array filled slot by slot holds, in order, what each pass stores;
    the first pass that fails ends the loop. *)
Lemma load_images_map self image_paths :
  _load_images load_image resize_image self image_paths
  = map_result (stored_image load_image resize_image (image_size self)) image_paths.
Proof.
  unfold _load_images, enumerate.
  pose proof (load_images_loop self [] image_paths) as Hloop.
  cbn [length app] in Hloop. rewrite Hloop.
  by destruct (map_result _ image_paths).
Qed.

(** A stored image has the shape of its slot. *)
Lemma stored_image_shape size image_path hand :
  stored_image load_image resize_image size image_path = Ok hand ->
  shape0 hand = fst (fst size) /\ shape1 hand = snd (fst size) /\ shape2 hand = snd size.
Proof.
  unfold stored_image, assign.
  destruct (load_image image_path) as [image | e]; simpl; [| done].
  destruct (resize_image image _) as [resized | e]; simpl; [| done].
  destruct (_ && _); [| done]. by intros [= <-].
Qed.

Lemma stored_images_total size dir files :
  (forall file, In file files ->
     exists hand, stored_image load_image resize_image size (posix_join dir file) = Ok hand) ->
  exists hands,
    map_result (stored_image load_image resize_image size) (map (posix_join dir) files)
    = Ok hands /\ length hands = length files.
Proof.
  intros Hall.
  destruct (map_result_total (stored_image load_image resize_image size)
              (map (posix_join dir) files)) as [hands Hhands].
  { intros i image_path Hpath. apply list_lookup_fmap_Some in Hpath as (file & -> & Hfile).
    apply Hall, list_elem_of_In. by eapply list_elem_of_lookup_2. }
  exists hands. split; [exact Hhands |].
  apply map_result_Ok in Hhands as [Hlen _]. by rewrite length_map in Hlen.
Qed.

(** *** The labels *)

(** One pass of the loop over the label files never completes: after the
    file is parsed and its field read, the conversion raises. *)
Lemma load_label_raises keypoints arg label_path :
  load_label json_load keypoints (arg, label_path)
  = result_bind (json_load label_path) (fun data =>
    result_bind (getitem data "hand_pts") (fun _ => Raise (AttributeError "to_numpy"))).
Proof.
  unfold load_label.
  destruct (json_load label_path) as [data | e]; simpl; [| done].
  by destruct (getitem data "hand_pts").
Qed.

Lemma load_labels_cons label_path rest :
  _load_labels json_load (label_path :: rest)
  = result_bind (json_load label_path) (fun data =>
    result_bind (getitem data "hand_pts") (fun _ => Raise (AttributeError "to_numpy"))).
Proof.
  unfold _load_labels, enumerate. cbn [length seq combine replicate for_each].
  rewrite load_label_raises.
  destruct (json_load label_path) as [data | e]; simpl; [| done].
  by destruct (getitem data "hand_pts").
Qed.

Lemma load_labels_Ok label_paths keypoints :
  _load_labels json_load label_paths = Ok keypoints ->
  label_paths = [] /\ keypoints = [].
Proof.
  destruct label_paths as [| label_path rest]; [by intros [= <-] |].
  rewrite load_labels_cons.
  destruct (json_load label_path) as [data | e]; simpl; [| done].
  by destruct (getitem data "hand_pts").
Qed.

(** *** The data *)

(** For a single directory that can be listed. *)
Lemma load_data_directory self dir files :
  path self = PathStr dir -> listdir dir = Ok files ->
  load_data listdir load_image resize_image json_load self
  = result_bind
      (map_result (stored_image load_image resize_image (image_size self))
                  (map (posix_join dir) (files_with_ext ".jpg" files)))
      (fun hands =>
         if String.eqb (split self) "train" then
           result_bind
             (_load_labels json_load (map (posix_join dir) (files_with_ext ".json" files)))
             (fun keypoints => _to_list_of_dictionaries hands (Some keypoints))
         else _to_list_of_dictionaries hands None).
Proof.
  intros Hpath Hdir. unfold load_data.
  rewrite Hpath, (load_paths_directory _ _ Hdir). cbn [result_bind].
  by rewrite load_images_map.
Qed.

(** The training split returns only when nothing was collected. *)
Lemma load_data_train_Ok self dataset :
  split self = "train"%string ->
  load_data listdir load_image resize_image json_load self = Ok dataset ->
  dataset = [] /\ _load_paths listdir (path self) = Ok ([], []).
Proof.
  intros Hsplit. unfold load_data. rewrite Hsplit.
  destruct (_load_paths listdir (path self)) as [[image_paths label_paths] | e];
    cbn [result_bind]; [| done].
  rewrite load_images_map.
  destruct (map_result _ image_paths) as [hands | e] eqn:Hhands; cbn [result_bind]; [| done].
  change (String.eqb "train" "train") with true. cbv iota.
  destruct (_load_labels json_load label_paths) as [keypoints | e] eqn:Hkeypoints;
    cbn [result_bind]; [| done].
  apply load_labels_Ok in Hkeypoints as [-> ->].
  apply map_result_Ok in Hhands as [Hlen _].
  intros Hdata. apply to_list_of_dictionaries_Ok in Hdata as [Hdlen Hat].
  destruct hands as [| hand hands].
  - destruct image_paths; [| done]. by destruct dataset.
  - destruct (Hat 0%nat hand eq_refl) as (k & Hk & _). done.
Qed.

(** The training split with images that can all be stored: the error is
    that of the first label file. *)
Lemma load_data_train_first_label self dir files label_file rest :
  path self = PathStr dir -> split self = "train"%string ->
  listdir dir = Ok files ->
  files_with_ext ".json" files = label_file :: rest ->
  (forall file, In file (files_with_ext ".jpg" files) ->
     exists hand,
       stored_image load_image resize_image (image_size self) (posix_join dir file)
       = Ok hand) ->
  load_data listdir load_image resize_image json_load self
  = result_bind (json_load (posix_join dir label_file)) (fun data =>
    result_bind (getitem data "hand_pts") (fun _ => Raise (AttributeError "to_numpy"))).
Proof.
  intros Hpath Hsplit Hdir Hlabels Himages.
  rewrite (load_data_directory self dir files Hpath Hdir).
  destruct (stored_images_total _ dir _ Himages) as (hands & -> & _).
  cbn [result_bind]. rewrite Hsplit, Hlabels.
  change (String.eqb "train" "train") with true. cbv iota.
  cbn [map]. rewrite load_labels_cons.
  destruct (json_load (posix_join dir label_file)) as [data | e]; simpl; [| done].
  by destruct (getitem data "hand_pts").
Qed.

(** The training split with images and no label file. *)
Lemma load_data_train_no_label self dir files :
  path self = PathStr dir -> split self = "train"%string ->
  listdir dir = Ok files ->
  files_with_ext ".json" files = [] ->
  files_with_ext ".jpg" files <> [] ->
  (forall file, In file (files_with_ext ".jpg" files) ->
     exists hand,
       stored_image load_image resize_image (image_size self) (posix_join dir file)
       = Ok hand) ->
  load_data listdir load_image resize_image json_load self = Raise IndexError.
Proof.
  intros Hpath Hsplit Hdir Hlabels Hsome Himages.
  rewrite (load_data_directory self dir files Hpath Hdir).
  destruct (stored_images_total _ dir _ Himages) as (hands & -> & Hlen).
  cbn [result_bind]. rewrite Hsplit, Hlabels.
  change (String.eqb "train" "train") with true. cbv iota.
  destruct hands as [| hand hands].
  { destruct (files_with_ext ".jpg" files); done. }
  reflexivity.
Qed.
End Loader.

(** With a file system in which every directory can be listed. *)
Lemma load_paths_list listing folders :
  HandKeypoints._load_paths (listed listing) (PathList folders)
  = if existsb (fun folder => existsb is_data_file (listing folder)) folders
    then Raise path_type_error else Ok ([], []).
Proof.
  unfold HandKeypoints._load_paths. generalize folders at 1 as joined. intros joined.
  generalize (@nil string, @nil string) as paths.
  induction folders as [| folder rest IH]; intros paths; simpl; [done |].
  rewrite load_paths_list_loop.
  destruct (existsb is_data_file (listing folder)); simpl; [done | apply IH].
Qed.

(** C4 (the code departs from the claim).  The directory of the example
    holds two images and two labels with matching stems; both images load,
    are resized and fit their slots, and both label files parse to a dict
    with the field ['hand_pts'].  In the training split [load_data] raises
    [AttributeError]: the value read from the label is a plain list, which
    has no [to_numpy].  In general, whatever the file system, the image
    backend and the parser do, the training split returns only when no
    image file and no label file was collected, and then it returns the
    empty list: no sample with keypoints is ever returned.  The pairing
    itself, in [_to_list_of_dictionaries], is by position: sample [i] takes
    image [i] and label [i], and no stem is compared. *)
Theorem load_data_train_never_returns_samples :
  files_with_ext ".jpg" (example_listdir "dataset/") = ["a.jpg"; "b.jpg"]%string /\
  files_with_ext ".json" (example_listdir "dataset/") = ["b.json"; "a.json"]%string /\
  map stem ["a.jpg"; "b.jpg"]%string = map stem ["a.json"; "b.json"]%string /\
  (forall image_path, In image_path ["dataset/a.jpg"; "dataset/b.jpg"]%string ->
     exists hand,
       stored_image example_load_hand example_resize (300, 300, 3)%nat image_path = Ok hand /\
       shape0 hand = 300%nat /\ shape1 hand = 300%nat /\ shape2 hand = 3%nat) /\
  (forall label_path, In label_path ["dataset/a.json"; "dataset/b.json"]%string ->
     exists data keypoint_set,
       example_json_load label_path = Ok data /\
       getitem data "hand_pts" = Ok keypoint_set) /\
  HandKeypoints.load_data (listed example_listdir) example_load_hand example_resize
    example_json_load example_loader
  = Raise (AttributeError "to_numpy") /\
  (forall listdir load_image resize_image json_load self dataset,
     HandKeypoints.split self = "train"%string ->
     HandKeypoints.load_data listdir load_image resize_image json_load self = Ok dataset ->
     dataset = [] /\ HandKeypoints._load_paths listdir (HandKeypoints.path self) = Ok ([], [])) /\
  (forall hands keypoints dataset,
     HandKeypoints._to_list_of_dictionaries hands (Some keypoints) = Ok dataset ->
     length dataset = length hands /\
     forall i hand, hands !! i = Some hand ->
       exists k, keypoints !! i = Some k /\
         dataset !! i
         = Some (<["keypoints" := FKeypoints k]> (<["image" := FImage hand]> ∅))).
Proof.
  split; [reflexivity |]. split; [reflexivity |]. split; [reflexivity |].
  split.
  { intros image_path [<- | [<- | []]]; eexists; (split; [reflexivity |]); by repeat split. }
  split.
  { intros label_path [<- | [<- | []]]; eexists _, _; split; reflexivity. }
  split.
  { rewrite (load_data_train_first_label (listed example_listdir) example_load_hand
               example_resize example_json_load example_loader "dataset/"
               (example_listdir "dataset/") "b.json" ["a.json"%string]);
      try reflexivity.
    intros file [<- | [<- | []]]; eexists; reflexivity. }
  split.
  - intros listdir load_image resize_image json_load self dataset.
    apply load_data_train_Ok.
  - apply to_list_of_dictionaries_Ok.
Qed.

Lemma load_data_train_never_returns_samples_witness :
  HandKeypoints.load_data (listed notes_listdir) example_load_hand example_resize
    example_json_load example_loader = Ok [] /\
  HandKeypoints._load_paths (listed notes_listdir) (PathStr "dataset/") = Ok ([], []).
Proof.
  assert (Hdata : HandKeypoints.load_data (listed notes_listdir) example_load_hand
                    example_resize example_json_load example_loader = Ok [])
    by reflexivity.
  split; [exact Hdata |].
  destruct load_data_train_never_returns_samples as (_ & _ & _ & _ & _ & _ & Hgeneral & _).
  exact (proj2 (Hgeneral (listed notes_listdir) example_load_hand example_resize
                  example_json_load example_loader [] eq_refl Hdata)).
Defined.

(** C5 (the code departs from the claim).  With a list of directories the
    loop joins every collected file to the list itself, not to the folder
    it is in, and [os.path.join] raises [TypeError]: no path is ever
    returned for a list of roots, while the same directory given as one
    string is partitioned.  When a directory cannot be listed the error of
    the system comes instead; it is the only other outcome. *)
Theorem load_paths_list_of_roots_raises :
  HandKeypoints._load_paths (listed example_listdir) (PathList ["dataset/"; "more/"]%string)
  = Raise path_type_error /\
  HandKeypoints._load_paths (listed example_listdir) (PathStr "dataset/")
  = Ok (["dataset/a.jpg"; "dataset/b.jpg"]%string,
        ["dataset/b.json"; "dataset/a.json"]%string) /\
  (forall listing folders,
     HandKeypoints._load_paths (listed listing) (PathList folders)
     = if existsb (fun folder => existsb is_data_file (listing folder)) folders
       then Raise path_type_error else Ok ([], [])) /\
  (forall listdir folders,
     (forall paths,
        HandKeypoints._load_paths listdir (PathList folders) = Ok paths ->
        paths = ([], [])) /\
     (forall e,
        HandKeypoints._load_paths listdir (PathList folders) = Raise e ->
        e = path_type_error \/
        exists folder, In folder folders /\ listdir folder = Raise e)).
Proof.
  split; [reflexivity |]. split; [reflexivity |]. split; [apply load_paths_list |].
  intros listdir folders. apply load_paths_folders_loop.
Qed.

(** ** SubtractMeanImage / AddMeanImage *)

Lemma broadcast_dim_one_r n : broadcast_dim n 1 = Some n.
Proof.
  unfold broadcast_dim. destruct (Nat.eqb_spec n 1) as [-> | _]; done.
Qed.

Lemma compatible_sym m n : compatible m n -> compatible n m.
Proof. unfold compatible. intuition auto. Qed.

(** An operation of an image with a list of numbers: the result when the
    list fits the channels, the shape error otherwise. *)
Lemma mean_operation_ok f mean image :
  compatible (shape2 image) (length mean) ->
  exists out,
    broadcast2 f image (np_of_list mean) = Ok out /\
    shape0 out = shape0 image /\ shape1 out = shape1 image /\
    shape2 out = (if (shape2 image =? 1)%nat then length mean else shape2 image) /\
    forall i j k, (i < shape0 image)%nat -> (j < shape1 image)%nat ->
      item out i j k
      = f (item image i j (broadcast_index (shape2 image) k))
          (nth (broadcast_index (length mean) k) mean 0).
Proof.
  intros Hc. destruct (compatible_dim _ _ Hc) as [c Hdim].
  erewrite (broadcast2_ok f image (np_of_list mean));
    [| apply broadcast_dim_one_r | apply broadcast_dim_one_r | exact Hdim].
  eexists. split; [reflexivity |]. cbn [shape0 shape1 shape2 item np_of_list].
  repeat split.
  - unfold broadcast_dim in Hdim.
    destruct (Nat.eqb_spec (shape2 image) (length mean)) as [E | _].
    + injection Hdim as <-. destruct (Nat.eqb_spec (shape2 image) 1); congruence.
    + destruct (Nat.eqb_spec (shape2 image) 1) as [_ | _]; [congruence |].
      destruct (length mean =? 1)%nat; congruence.
  - intros i j k Hi Hj.
    by rewrite (broadcast_index_lt _ i Hi), (broadcast_index_lt _ j Hj).
Qed.

Lemma mean_operation_raise f mean image :
  broadcast2 f image (np_of_list mean) = Raise (ValueError broadcast_msg)
  <-> ~ compatible (shape2 image) (length mean).
Proof.
  split.
  - intros Hraise Hc.
    destruct (mean_operation_ok f mean image Hc) as (out & Hok & _). congruence.
  - intros Hbad. apply broadcast2_raise. right; right. exact Hbad.
Qed.

(** X1.  With a mean that has one entry per channel, or a single entry,
    adding the mean undoes subtracting it and subtracting undoes adding:
    the image comes back item by item. *)
Theorem add_subtract_mean_roundtrip (mean : list Q) (image : ndarray) :
  length mean = shape2 image \/ length mean = 1%nat ->
  (exists shifted restored,
     SubtractMeanImage.call mean image = Ok shifted /\
     AddMeanImage.call mean shifted = Ok restored /\
     array_eq restored image) /\
  (exists shifted restored,
     AddMeanImage.call mean image = Ok shifted /\
     SubtractMeanImage.call mean shifted = Ok restored /\
     array_eq restored image).
Proof.
  intros Hmean.
  assert (Hc : compatible (shape2 image) (length mean))
    by (unfold compatible; destruct Hmean; auto).
  assert (Hround : forall f g,
    (forall x m, g (f x m) m == x) ->
    exists shifted restored,
      broadcast2 f image (np_of_list mean) = Ok shifted /\
      broadcast2 g shifted (np_of_list mean) = Ok restored /\
      array_eq restored image).
  { intros f g Hfg.
    destruct (mean_operation_ok f mean image Hc) as (shifted & Hs & S0 & S1 & S2 & Hitem).
    assert (S2' : shape2 shifted = shape2 image).
    { rewrite S2. destruct (Nat.eqb_spec (shape2 image) 1) as [E | _]; [| done].
      destruct Hmean; congruence. }
    assert (Hc' : compatible (shape2 shifted) (length mean)) by (by rewrite S2').
    destruct (mean_operation_ok g mean shifted Hc')
      as (restored & Hr & R0 & R1 & R2 & Hitem').
    exists shifted, restored. split; [exact Hs |]. split; [exact Hr |].
    assert (R2' : shape2 restored = shape2 image).
    { rewrite R2, S2'. destruct (Nat.eqb_spec (shape2 image) 1) as [E | _]; [| done].
      destruct Hmean; congruence. }
    unfold array_eq. rewrite R0, R1, R2', S0, S1.
    repeat split. intros i j k Hi Hj Hk.
    rewrite Hitem' by lia. rewrite Hitem by lia.
    rewrite S2'. rewrite !(broadcast_index_lt (shape2 image) k Hk). apply Hfg. }
  split.
  - apply (Hround Qminus Qplus). intros x m. ring.
  - apply (Hround Qplus Qminus). intros x m. ring.
Qed.

Lemma add_subtract_mean_roundtrip_witness :
  exists shifted restored,
    SubtractMeanImage.call [104; 117; 123] square_image = Ok shifted /\
    AddMeanImage.call [104; 117; 123] shifted = Ok restored /\
    array_eq restored square_image.
Proof.
  apply (add_subtract_mean_roundtrip [104; 117; 123] square_image).
  left. reflexivity.
Defined.

(** X2.  Subtracting or adding a mean raises numpy's shape error exactly
    when the number of entries of the mean and the number of channels
    differ and neither is 1 (a four-channel image with a mean of three
    entries, for one).  Otherwise the height and the width are kept, and a
    one-channel image comes back with as many channels as the mean has
    entries. *)
Theorem mean_shape_error (mean : list Q) (image : ndarray) :
  (SubtractMeanImage.call mean image = Raise (ValueError broadcast_msg)
   <-> ~ compatible (shape2 image) (length mean)) /\
  (AddMeanImage.call mean image = Raise (ValueError broadcast_msg)
   <-> ~ compatible (shape2 image) (length mean)) /\
  (compatible (shape2 image) (length mean) ->
   exists lowered raised,
     SubtractMeanImage.call mean image = Ok lowered /\
     AddMeanImage.call mean image = Ok raised /\
     shape0 lowered = shape0 image /\ shape1 lowered = shape1 image /\
     shape0 raised = shape0 image /\ shape1 raised = shape1 image /\
     shape2 lowered = (if (shape2 image =? 1)%nat then length mean else shape2 image) /\
     shape2 raised = shape2 lowered).
Proof.
  split; [apply mean_operation_raise |]. split; [apply mean_operation_raise |].
  intros Hc.
  destruct (mean_operation_ok Qminus mean image Hc) as (lowered & Hl & L0 & L1 & L2 & _).
  destruct (mean_operation_ok Qplus mean image Hc) as (raised & Hr & R0 & R1 & R2 & _).
  exists lowered, raised. repeat split; try assumption. congruence.
Qed.

(** ** RandomLightingNoise *)

Ltac channel_position c :=
  first [ exists 0%nat; split; [lia | reflexivity]
        | exists 1%nat; split; [lia | reflexivity]
        | exists 2%nat; split; [lia | reflexivity] ].

Lemma permutations_spec :
  List.Forall
    (fun swap =>
       is_permutation swap /\
       (forall k, (k < 3)%nat -> swapped swap k < 3)%nat /\
       (exists k, (k < 3)%nat /\ swapped swap k = 2%nat))
    RandomLightingNoise.permutations.
Proof.
  unfold RandomLightingNoise.permutations.
  repeat (apply List.Forall_cons;
          [ split; [| split];
            [ intros [| [| [| c]]] Hc; [| | | lia]; channel_position c
            | intros [| [| [| k]]] Hk; cbn [swapped fst snd]; lia
            | channel_position 2%nat ] |]).
  apply List.Forall_nil.
Qed.

(** X3.  On an image of at least three channels the processor returns an
    image of the same height and width and of three channels, which are
    the first three channels of the input in one of the six orders of
    [permutations]: every one of them is used exactly once (a fourth
    channel is dropped).  On an image of fewer than three channels it
    raises [IndexError]. *)
Theorem lighting_noise_permutes_channels (image : ndarray) (t : Tape) (p : nat) :
  valid_tape t ->
  ((3 <= shape2 image)%nat ->
   exists swap out,
     In swap RandomLightingNoise.permutations /\
     is_permutation swap /\
     RandomLightingNoise.call image t p = Ok (out, S p) /\
     shape0 out = shape0 image /\ shape1 out = shape1 image /\ shape2 out = 3%nat /\
     forall i j k, (k < 3)%nat ->
       (swapped swap k < 3)%nat /\
       item out i j k = item image i j (swapped swap k)) /\
  ((shape2 image < 3)%nat ->
   RandomLightingNoise.call image t p = Raise IndexError).
Proof.
  intros Ht.
  destruct (random_randint_range t p 0 6 Ht) as (arg & Harg & Hrange); [lia |].
  assert (Hswap : exists swap,
    nth_error RandomLightingNoise.permutations (Z.to_nat arg) = Some swap /\
    In swap RandomLightingNoise.permutations /\ is_permutation swap /\
    (forall k, (k < 3)%nat -> swapped swap k < 3)%nat /\
    (exists k, (k < 3)%nat /\ swapped swap k = 2%nat)).
  { destruct (nth_error RandomLightingNoise.permutations (Z.to_nat arg))
      as [swap |] eqn:Hnth; [| apply nth_error_None in Hnth; simpl in Hnth; lia].
    exists swap. split; [reflexivity |].
    pose proof (nth_error_In _ _ Hnth) as Hin. split; [exact Hin |].
    pose proof permutations_spec as Hall.
    rewrite List.Forall_forall in Hall. exact (Hall swap Hin). }
  destruct Hswap as (swap & Hnth & Hin & Hperm & Hlt & k2 & Hk2 & Hswap2).
  unfold RandomLightingNoise.call, bind. change (Z.of_nat (length _)) with 6%Z.
  rewrite Harg, Hnth. unfold ret, lift, take_channels.
  destruct swap as [[c0 c1] c2].
  pose proof (Hlt 0%nat ltac:(lia)) as H0. pose proof (Hlt 1%nat ltac:(lia)) as H1.
  pose proof (Hlt 2%nat ltac:(lia)) as H2. cbn [swapped fst snd] in H0, H1, H2.
  split.
  - intros HC. exists (c0, c1, c2).
    destruct (Nat.ltb_spec c0 (shape2 image)); [| lia].
    destruct (Nat.ltb_spec c1 (shape2 image)); [| lia].
    destruct (Nat.ltb_spec c2 (shape2 image)); [| lia].
    cbn [andb]. eexists. split; [exact Hin |]. split; [exact Hperm |].
    split; [reflexivity |]. cbn [shape0 shape1 shape2 item].
    do 3 (split; [reflexivity |]).
    intros i j k Hk. split.
    + by apply (Hlt k).
    + by destruct k as [| [| k]].
  - intros HC.
    assert (Hout : (shape2 image <= c0 \/ shape2 image <= c1 \/ shape2 image <= c2)%nat).
    { destruct k2 as [| [| k2]]; cbn [swapped fst snd] in Hswap2; lia. }
    destruct (Nat.ltb_spec c0 (shape2 image)); [| done].
    destruct (Nat.ltb_spec c1 (shape2 image)); [| done].
    destruct (Nat.ltb_spec c2 (shape2 image)); [lia | done].
Qed.

Lemma lighting_noise_permutes_channels_witness :
  valid_tape half_tape /\
  exists swap out,
    In swap RandomLightingNoise.permutations /\
    RandomLightingNoise.call square_image half_tape 0%nat = Ok (out, 1%nat) /\
    shape2 out = 3%nat.
Proof.
  assert (Ht : valid_tape half_tape) by half_tape_is_valid.
  split; [exact Ht |].
  destruct (proj1 (lighting_noise_permutes_channels square_image half_tape 0%nat Ht))
    as (swap & out & Hin & _ & Hcall & _ & _ & Hshape & _); [simpl; lia |].
  exists swap, out. auto.
Defined.

(** ** HandKeypoints: paths, splits and failures *)

Lemma filter_data_files_length (files : list string) :
  (length (files_with_ext ".jpg" files) + length (files_with_ext ".json" files)
   = length (List.filter is_data_file files))%nat.
Proof.
  unfold files_with_ext.
  induction files as [| file files IH]; [done |]. simpl. unfold is_data_file at 1.
  destruct (String.eqb_spec (snd (splitext file)) ".jpg") as [E | _].
  - rewrite E. simpl. lia.
  - destruct (String.eqb (snd (splitext file)) ".json"); simpl; lia.
Qed.

(** X5.  For a single directory, [_load_paths] passes on the error of a
    directory that cannot be listed.  When the directory is listed it
    returns the entries of the listing with extension [.jpg], joined to the
    directory, as image paths and those with extension [.json] as label
    paths, each in listing order; every other entry is ignored. *)
Theorem load_paths_partitions_directory
    (listdir : string -> Result (list string)) (dir : string) :
  (forall e, listdir dir = Raise e ->
     HandKeypoints._load_paths listdir (PathStr dir) = Raise e) /\
  (forall files, listdir dir = Ok files ->
     exists image_paths label_paths,
       HandKeypoints._load_paths listdir (PathStr dir) = Ok (image_paths, label_paths) /\
       image_paths = map (posix_join dir) (files_with_ext ".jpg" files) /\
       label_paths = map (posix_join dir) (files_with_ext ".json" files) /\
       (length image_paths + length label_paths
        = length (List.filter is_data_file files))%nat /\
       (forall i image_path, image_paths !! i = Some image_path ->
          exists file, In file files /\ snd (splitext file) = ".jpg"%string /\
                       image_path = posix_join dir file) /\
       (forall i label_path, label_paths !! i = Some label_path ->
          exists file, In file files /\ snd (splitext file) = ".json"%string /\
                       label_path = posix_join dir file)).
Proof.
  split; [intros e; apply load_paths_directory_error |].
  intros files Hdir.
  eexists _, _. split; [by apply load_paths_directory |].
  split; [reflexivity |]. split; [reflexivity |]. split.
  - rewrite !length_map. apply filter_data_files_length.
  - split; intros i joined Hat;
      apply list_lookup_fmap_Some in Hat as (file & -> & Hfile);
      apply list_elem_of_lookup_2, list_elem_of_In in Hfile;
      apply List.filter_In in Hfile as [Hin Hext];
      apply String.eqb_eq in Hext; eauto.
Qed.

Lemma load_paths_partitions_directory_witness :
  HandKeypoints._load_paths missing_directory (PathStr "dataset/") = Raise no_such_file /\
  exists image_paths label_paths,
    HandKeypoints._load_paths (listed example_listdir) (PathStr "dataset/")
    = Ok (image_paths, label_paths) /\
    image_paths = ["dataset/a.jpg"; "dataset/b.jpg"]%string.
Proof.
  split.
  - apply (proj1 (load_paths_partitions_directory missing_directory "dataset/")).
    reflexivity.
  - destruct (proj2 (load_paths_partitions_directory (listed example_listdir) "dataset/")
                (example_listdir "dataset/") eq_refl)
      as (image_paths & label_paths & Hpaths & Himages & _).
    exists image_paths, label_paths. split; [exact Hpaths |]. by rewrite Himages.
Defined.

Lemma to_list_of_dictionaries_images_only (before hands : list ndarray) :
  map_result (HandKeypoints.make_sample (before ++ hands) None)
             (seq (length before) (length hands))
  = Ok (map image_sample hands).
Proof.
  revert before. induction hands as [| hand hands IH]; intros before; [done |].
  cbn [length seq map_result]. unfold HandKeypoints.make_sample at 1.
  rewrite lookup_app_r by lia. rewrite Nat.sub_diag. cbn [lookup list_lookup result_bind].
  replace (before ++ hand :: hands) with ((before ++ [hand]) ++ hands)
    by (by rewrite <- app_assoc).
  replace (S (length before)) with (length (before ++ [hand]))
    by (rewrite length_app; simpl; lia).
  by rewrite IH.
Qed.

(** X6.  In a split other than the training split, the label files are
    never read: whatever the parser does, [load_data] of a single directory
    returns when every image file loads, can be resized and fits a slot of
    shape [image_size], with one sample per image file in listing order;
    each sample holds under ["image"] the slot the image was stored in, of
    shape [image_size], and has no ["keypoints"]. *)
Theorem load_data_other_split
    (listdir : string -> Result (list string)) (load_image : string -> Result ndarray)
    (resize_image : ndarray -> nat * nat -> Result ndarray)
    (json_load : string -> Result json)
    (dir split : string) (size : nat * nat * nat) (files : list string) :
  split <> "train"%string ->
  listdir dir = Ok files ->
  (forall file, In file (files_with_ext ".jpg" files) ->
     exists hand,
       stored_image load_image resize_image size (posix_join dir file) = Ok hand) ->
  let self := {| HandKeypoints.path := PathStr dir;
                 HandKeypoints.image_size := size;
                 HandKeypoints.split := split |} in
  let images := files_with_ext ".jpg" files in
  exists dataset,
    HandKeypoints.load_data listdir load_image resize_image json_load self = Ok dataset /\
    length dataset = length images /\
    forall i image_file, images !! i = Some image_file ->
      exists hand sample,
        stored_image load_image resize_image size (posix_join dir image_file) = Ok hand /\
        shape0 hand = fst (fst size) /\ shape1 hand = snd (fst size) /\
        shape2 hand = snd size /\
        dataset !! i = Some sample /\
        sample !! "image" = Some (FImage hand) /\
        sample !! "keypoints" = None.
Proof.
  intros Hsplit Hdir Himages self images.
  rewrite (load_data_directory listdir load_image resize_image json_load self dir files
             eq_refl Hdir).
  cbn [HandKeypoints.image_size HandKeypoints.split self]. fold images.
  destruct (map_result (stored_image load_image resize_image size)
              (map (posix_join dir) images)) as [hands | e] eqn:Hhands.
  2: { destruct (stored_images_total load_image resize_image size dir images Himages)
         as (hands & Hok & _). congruence. }
  cbn [result_bind].
  apply map_result_Ok in Hhands as [Hlen Hat]. rewrite length_map in Hlen.
  destruct (String.eqb_spec split "train") as [E | _]; [done |].
  unfold HandKeypoints._to_list_of_dictionaries.
  pose proof (to_list_of_dictionaries_images_only [] hands) as Hsamples.
  cbn [app length] in Hsamples. rewrite Hsamples.
  eexists. split; [reflexivity |]. split; [by rewrite length_map |].
  intros i image_file Himage.
  destruct (Hat i (posix_join dir image_file)) as (hand & Hhand & Hstored).
  { by rewrite list_lookup_fmap, Himage. }
  destruct (stored_image_shape load_image resize_image size _ hand Hstored)
    as (S0 & S1 & S2).
  exists hand, (image_sample hand).
  split; [exact Hstored |]. do 3 (split; [assumption |]). split.
  - by rewrite list_lookup_fmap, Hhand.
  - unfold image_sample. split; [by rewrite lookup_insert_eq |].
    rewrite lookup_insert_ne by done. apply lookup_empty.
Qed.

Lemma load_data_other_split_witness :
  exists dataset,
    HandKeypoints.load_data (listed example_listdir) example_load_hand example_resize
      unreadable_labels example_test_loader = Ok dataset /\
    length dataset = 2%nat.
Proof.
  destruct (load_data_other_split (listed example_listdir) example_load_hand example_resize
              unreadable_labels "dataset/" "test" (300, 300, 3)%nat
              (example_listdir "dataset/"))
    as (dataset & Hdata & Hlen & _).
  - discriminate.
  - reflexivity.
  - intros file [<- | [<- | []]]; eexists; reflexivity.
  - exists dataset. split; [exact Hdata | exact Hlen].
Defined.

(** X7.  An image that cannot be used is not skipped: in any split and
    whatever the label files hold, [load_data] of a single directory stops
    at the first image file of the listing that fails.  It raises the error
    of [load_image], or that of [resize_image], or numpy's [ValueError] when
    the resized image does not broadcast into a slot of shape
    [image_size]. *)
Theorem load_data_first_unreadable_image
    (listdir : string -> Result (list string)) (load_image : string -> Result ndarray)
    (resize_image : ndarray -> nat * nat -> Result ndarray)
    (json_load : string -> Result json)
    (dir split : string) (size : nat * nat * nat) (files : list string)
    (i : nat) (image_file : string) :
  let self := {| HandKeypoints.path := PathStr dir;
                 HandKeypoints.image_size := size;
                 HandKeypoints.split := split |} in
  let images := files_with_ext ".jpg" files in
  listdir dir = Ok files ->
  images !! i = Some image_file ->
  (forall j other, (j < i)%nat -> images !! j = Some other ->
     exists hand,
       stored_image load_image resize_image size (posix_join dir other) = Ok hand) ->
  (forall e,
     load_image (posix_join dir image_file) = Raise e ->
     HandKeypoints.load_data listdir load_image resize_image json_load self = Raise e) /\
  (forall image e,
     load_image (posix_join dir image_file) = Ok image ->
     resize_image image (fst (fst size), snd (fst size)) = Raise e ->
     HandKeypoints.load_data listdir load_image resize_image json_load self = Raise e) /\
  (forall image resized,
     load_image (posix_join dir image_file) = Ok image ->
     resize_image image (fst (fst size), snd (fst size)) = Ok resized ->
     broadcasts_to (shape0 resized) (fst (fst size))
     && broadcasts_to (shape1 resized) (snd (fst size))
     && broadcasts_to (shape2 resized) (snd size) = false ->
     HandKeypoints.load_data listdir load_image resize_image json_load self
     = Raise (ValueError could_not_broadcast)).
Proof.
  intros self images Hdir Hat Hbefore.
  assert (Hfails : forall e,
    stored_image load_image resize_image size (posix_join dir image_file) = Raise e ->
    HandKeypoints.load_data listdir load_image resize_image json_load self = Raise e).
  { intros e Hstored.
    rewrite (load_data_directory listdir load_image resize_image json_load self dir files
               eq_refl Hdir).
    cbn [HandKeypoints.image_size self]. fold images.
    rewrite (map_result_first_error _ _ i (posix_join dir image_file) e); [done | | done |].
    - by rewrite list_lookup_fmap, Hat.
    - intros j other Hj Hother.
      apply list_lookup_fmap_Some in Hother as (file & -> & Hfile). by apply (Hbefore j). }
  split; [| split].
  - intros e Hload. apply Hfails. unfold stored_image. by rewrite Hload.
  - intros image e Hload Hresize. apply Hfails. unfold stored_image.
    rewrite Hload. cbn [result_bind]. by rewrite Hresize.
  - intros image resized Hload Hresize Hshape. apply Hfails. unfold stored_image.
    rewrite Hload. cbn [result_bind]. rewrite Hresize. cbn [result_bind].
    unfold assign. cbn [np_zeros shape0 shape1 shape2]. by rewrite Hshape.
Qed.

Lemma load_data_first_unreadable_image_witness :
  HandKeypoints.load_data (listed example_listdir) example_load_hand
    (fun image size => Ok image) example_json_load example_loader
  = Raise (ValueError could_not_broadcast).
Proof.
  destruct (load_data_first_unreadable_image (listed example_listdir) example_load_hand
              (fun image size => Ok image) example_json_load
              "dataset/" "train" (300, 300, 3)%nat (example_listdir "dataset/")
              0%nat "a.jpg"%string eq_refl eq_refl)
    as (_ & _ & Hshape).
  - intros j other Hj. lia.
  - apply (Hshape hand_a hand_a); reflexivity.
Defined.

(** X8.  The training split of a single directory whose image files can all
    be stored.  Without any label file and with at least one image,
    [load_data] raises [IndexError] when it indexes the empty array of
    keypoints.  With a label file, the first one of the listing decides: the
    error of opening or parsing it is passed on; a dict without the field
    ['hand_pts'] gives [KeyError]; and when the field is there, whatever it
    holds, the call of [to_numpy] on it gives [AttributeError]. *)
Theorem load_data_train_errors
    (listdir : string -> Result (list string)) (load_image : string -> Result ndarray)
    (resize_image : ndarray -> nat * nat -> Result ndarray)
    (json_load : string -> Result json)
    (dir : string) (size : nat * nat * nat) (files : list string) :
  let self := {| HandKeypoints.path := PathStr dir;
                 HandKeypoints.image_size := size;
                 HandKeypoints.split := "train" |} in
  let images := files_with_ext ".jpg" files in
  let labels := files_with_ext ".json" files in
  listdir dir = Ok files ->
  (forall file, In file images ->
     exists hand,
       stored_image load_image resize_image size (posix_join dir file) = Ok hand) ->
  (labels = [] -> images <> [] ->
   HandKeypoints.load_data listdir load_image resize_image json_load self
   = Raise IndexError) /\
  (forall label_file rest, labels = label_file :: rest ->
     (forall e,
        json_load (posix_join dir label_file) = Raise e ->
        HandKeypoints.load_data listdir load_image resize_image json_load self
        = Raise e) /\
     (forall members,
        json_load (posix_join dir label_file) = Ok (JDict members) ->
        dict_lookup "hand_pts" members = None ->
        HandKeypoints.load_data listdir load_image resize_image json_load self
        = Raise (KeyError "hand_pts")) /\
     (forall data keypoint_set,
        json_load (posix_join dir label_file) = Ok data ->
        getitem data "hand_pts" = Ok keypoint_set ->
        HandKeypoints.load_data listdir load_image resize_image json_load self
        = Raise (AttributeError "to_numpy"))).
Proof.
  intros self images labels Hdir Himages. split.
  - intros Hnone Hsome.
    by apply (load_data_train_no_label listdir load_image resize_image json_load
                self dir files).
  - intros label_file rest Hlabels.
    pose proof (load_data_train_first_label listdir load_image resize_image json_load
                  self dir files label_file rest eq_refl eq_refl Hdir Hlabels Himages)
      as Hfirst.
    split; [| split].
    + intros e Hload. by rewrite Hfirst, Hload.
    + intros members Hload Hmissing. rewrite Hfirst, Hload. cbn [result_bind getitem].
      by rewrite Hmissing.
    + intros data keypoint_set Hload Hfield. rewrite Hfirst, Hload. cbn [result_bind].
      by rewrite Hfield.
Qed.

Lemma load_data_train_errors_witness :
  HandKeypoints.load_data (listed unlabelled_listdir) example_load_hand example_resize
    example_json_load example_loader
  = Raise IndexError /\
  HandKeypoints.load_data (listed example_listdir) example_load_hand example_resize
    other_json_load example_loader
  = Raise (KeyError "hand_pts").
Proof.
  split.
  - apply (proj1 (load_data_train_errors (listed unlabelled_listdir) example_load_hand
                    example_resize example_json_load "dataset/" (300, 300, 3)%nat
                    (unlabelled_listdir "dataset/") eq_refl
                    ltac:(intros file [<- | [<- | []]]; eexists; reflexivity)));
      [reflexivity | discriminate].
  - destruct (proj2 (load_data_train_errors (listed example_listdir) example_load_hand
                       example_resize other_json_load "dataset/" (300, 300, 3)%nat
                       (example_listdir "dataset/") eq_refl
                       ltac:(intros file [<- | [<- | []]]; eexists; reflexivity))
                "b.json"%string ["a.json"%string] eq_refl)
      as (_ & Hkey & _).
    apply (Hkey [("is_left"%string, JInt 0)]); reflexivity.
Defined.

(** ** AddOcclusion: where the vertices and the colour lie *)

Section OcclusionBounds.
Local Open Scope R_scope.

(** Truncation toward zero keeps a value between bounds that enclose 0. *)
Lemma astype_int32_between (x low high : R) :
low <= 0 <= high -> low <= x <= high ->
low <= IZR (AddOcclusion.astype_int32 x) <= high.
Proof.
intros [Hlow Hhigh] [Hx0 Hx1]. unfold AddOcclusion.astype_int32.
destruct (Rle_dec 0 x) as [Hpos | Hneg].
- destruct (base_Int_part x) as [Hle Hgt].
  assert (H : (-1 < Int_part x)%Z) by (apply lt_IZR; simpl; lra).
  assert (0 <= IZR (Int_part x)) by (apply (IZR_le 0); lia). lra.
- destruct (base_Int_part (- x)) as [Hle Hgt].
  assert (H : (-1 < Int_part (- x))%Z) by (apply lt_IZR; simpl; lra).
  assert (0 <= IZR (Int_part (- x))) by (apply (IZR_le 0); lia).
  rewrite opp_IZR. lra.
Qed.
End OcclusionBounds.

(** X9.  For draws in [0,1) and a non-negative radius scale, every vertex
    of the occlusion polygon lies within [max(H, W) * max_radius_scale] of
    the image rectangle, and the three channels of the colour are integers
    of [0, 256). *)
Theorem occlusion_vertices_near_image
    (image : ndarray) (max_radius_scale : R) (t : AddOcclusion.RTape) (p : nat) :
  AddOcclusion.valid_rtape t ->
  (0 <= max_radius_scale)%R ->
  let reach := (INR (Nat.max (shape0 image) (shape1 image)) * max_radius_scale)%R in
  (forall i, (i < AddOcclusion.num_vertices t p)%nat ->
     exists x y,
       AddOcclusion.polygon image max_radius_scale t p !! i = Some (x, y) /\
       (- reach <= IZR x <= INR (shape1 image) + reach)%R /\
       (- reach <= IZR y <= INR (shape0 image) + reach)%R) /\
  (let '(c0, c1, c2) := AddOcclusion.color t p in
   (0 <= c0 < 256)%Z /\ (0 <= c1 < 256)%Z /\ (0 <= c2 < 256)%Z).
Proof.
  intros Ht Hscale reach. split.
  - intros i Hi. rewrite polygon_lookup by done.
    unfold AddOcclusion.make_vertex, AddOcclusion.center.
    eexists _, _. split; [reflexivity |].
    pose proof (vertex_radius_range image max_radius_scale t p i Ht Hscale) as Hr.
    fold reach in Hr.
    set (radius := AddOcclusion.vertex_radius image max_radius_scale t p i) in *.
    set (angle := AddOcclusion.vertex_angle t p i).
    pose proof (COS_bound angle) as [Hc0 Hc1].
    pose proof (SIN_bound angle) as [Hs0 Hs1].
    pose proof (pos_INR (shape1 image)) as HW. pose proof (pos_INR (shape0 image)) as HH.
    destruct (Ht (p + 2)%nat) as [Hx0 Hx1]. destruct (Ht (p + 3)%nat) as [Hy0 Hy1].
    assert (Hreach : (0 <= reach)%R) by lra.
    split; apply astype_int32_between; try (split; nra).
  - unfold AddOcclusion.color.
    pose proof (randint_range 0 256 (t (p + 4 + AddOcclusion.num_vertices t p)%nat)
                  ltac:(lia) (Ht _)).
    pose proof (randint_range 0 256 (t (p + 4 + AddOcclusion.num_vertices t p + 1)%nat)
                  ltac:(lia) (Ht _)).
    pose proof (randint_range 0 256 (t (p + 4 + AddOcclusion.num_vertices t p + 2)%nat)
                  ltac:(lia) (Ht _)).
    auto.
Qed.

Lemma occlusion_vertices_near_image_witness :
  AddOcclusion.valid_rtape half_rtape /\ (0 <= 1 / 2)%R /\
  exists x y,
    AddOcclusion.polygon square_image (1 / 2) half_rtape 0 !! 0%nat = Some (x, y) /\
    (- (INR 4 * (1 / 2)) <= IZR x <= INR 4 + INR 4 * (1 / 2))%R.
Proof.
  assert (Ht : AddOcclusion.valid_rtape half_rtape)
    by (intros k; unfold half_rtape; lra).
  assert (Hscale : (0 <= 1 / 2)%R) by lra.
  split; [exact Ht |]. split; [exact Hscale |].
  destruct (proj1 (occlusion_vertices_near_image square_image (1 / 2) half_rtape 0
                     Ht Hscale) 0%nat) as (x & y & Hat & Hx & _).
  - pose proof (proj1 (num_vertices_range half_rtape 0 Ht)). lia.
  - exists x, y. split; [exact Hat | exact Hx].
Defined.

(** ** ResizeImages *)

(** X10.  [ResizeImages.call] reads [self.shape], which the constructor
    never sets (it sets [self.size]): when the base class provides no
    attribute [shape], on an instance built by the constructor the call
    raises [AttributeError] for every non-empty list of images and returns
    the empty list for the empty list. *)
Theorem resize_images_reads_unset_shape
    (Processor : PyClass) (Processor_init : PyObject -> Result PyObject)
    (tf_image_resize : ndarray -> PyValue -> ndarray)
    (size : PyValue) (self : PyObject) (images : list ndarray) :
  class_namespace Processor !! "shape" = None ->
  getattr_hook Processor = None ->
  (forall o o', Processor_init o = Ok o' ->
     class_of o' = class_of o /\
     instance_dict o' !! "shape" = instance_dict o !! "shape") ->
  ResizeImages.construct Processor Processor_init size = Ok self ->
  ResizeImages.call tf_image_resize self [] = Ok [] /\
  (images <> [] ->
   ResizeImages.call tf_image_resize self images = Raise (AttributeError "shape")).
Proof.
  intros Hbase Hhook Hinit Hself. split; [reflexivity |].
  intros Hne. destruct images as [| image rest]; [done |].
  unfold ResizeImages.construct, ResizeImages.__init__ in Hself.
  apply Hinit in Hself as [Hclass Hshape].
  unfold ResizeImages.call. cbn [map_result]. unfold getattr.
  rewrite Hshape, Hclass. cbn [setattr instance_dict class_of ResizeImages.new].
  rewrite lookup_insert_ne by done. rewrite lookup_empty.
  cbn [ResizeImages.class class_namespace getattr_hook].
  rewrite !lookup_insert_ne by done. by rewrite Hbase, Hhook.
Qed.

Lemma resize_images_reads_unset_shape_witness :
  exists self,
    ResizeImages.construct example_Processor example_Processor_init (PyInt 300) = Ok self /\
    ResizeImages.call example_resize_tf self [square_image]
    = Raise (AttributeError "shape").
Proof.
  eexists. split; [reflexivity |].
  apply (resize_images_reads_unset_shape example_Processor example_Processor_init
           example_resize_tf (PyInt 300) _ [square_image]).
  - reflexivity.
  - reflexivity.
  - intros o o' [= <-]. split; [reflexivity |].
    cbn [setattr instance_dict]. by rewrite !lookup_insert_ne.
  - reflexivity.
  - discriminate.
Defined.

(** ** Compositing with a random colour or a cropped patch *)

(** X11.  Without a configured colour, for draws in [0,1) and an image of
    four channels, [AddPlainBackground.call] draws three integers of
    [0, 256) and returns the three-channel image whose every item is
    [alpha * foreground + (1 - alpha) * colour], with [alpha] the fourth
    channel divided by 255. *)
Theorem plain_random_color_blend (image : ndarray) (t : Tape) (p : nat) :
  valid_tape t ->
  shape2 image = 4%nat ->
  exists out color,
    AddPlainBackground.call None image t p = Ok (out, (p + 3)%nat) /\
    (forall k, (0 <= channel color k < 256)%Z) /\
    shape0 out = shape0 image /\ shape1 out = shape1 image /\ shape2 out = 3%nat /\
    forall i j k, (i < shape0 image)%nat -> (j < shape1 image)%nat -> (k < 3)%nat ->
      item out i j k ==
      blend (item image i j 3 / 255) (item image i j k) (inject_Z (channel color k)).
Proof.
  intros Ht HC.
  destruct (plain_random_blend image t p Ht HC)
    as (out & color & Hcall & Hcolor & S0 & S1 & S2 & Hitem).
  destruct (random_randint3_range t p 0 256 Ht) as (color' & Hcolor' & Hrange); [lia |].
  assert (color' = color) as -> by congruence.
  exists out, color. repeat split; try assumption; apply Hrange.
Qed.

Lemma plain_random_color_blend_witness :
  valid_tape half_tape /\
  exists out, AddPlainBackground.call None scenario_image half_tape 0%nat = Ok (out, 3%nat).
Proof.
  assert (Ht : valid_tape half_tape) by half_tape_is_valid.
  split; [exact Ht |].
  destruct (plain_random_color_blend scenario_image half_tape 0%nat Ht eq_refl)
    as (out & color & Hcall & _).
  exists out. exact Hcall.
Defined.

(** X12.  When the crop size is the height and the width of a four-channel
    image and the selected three-channel background is larger than it in
    both dimensions, [AddCroppedBackground.call] returns the blend of every
    pixel with the pixel of a patch that lies inside the background:
    [alpha * foreground + (1 - alpha) * background]. *)
Theorem cropped_background_blend (load_image : string -> Result ndarray)
    (self : AddCroppedBackground.config) (image background : ndarray)
    (t : Tape) (p : nat) :
  valid_tape t ->
  shape2 image = 4%nat ->
  selected_background load_image self t p = Some background ->
  shape2 background = 3%nat ->
  shape0 image = Z.to_nat (AddCroppedBackground.box_size self) ->
  shape1 image = Z.to_nat (AddCroppedBackground.box_size self) ->
  (0 <= AddCroppedBackground.box_size self < Z.of_nat (shape0 background))%Z ->
  (AddCroppedBackground.box_size self < Z.of_nat (shape1 background))%Z ->
  exists out x_min y_min,
    AddCroppedBackground.call load_image self image t p = Ok (out, (p + 3)%nat) /\
    (x_min + shape1 image < shape1 background)%nat /\
    (y_min + shape0 image < shape0 background)%nat /\
    forall i j k, (i < shape0 image)%nat -> (j < shape1 image)%nat -> (k < 3)%nat ->
      item out i j k ==
      blend (item image i j 3 / 255) (item image i j k)
            (item background (y_min + i) (x_min + j) k).
Proof. apply cropped_patch_blend. Qed.

Lemma cropped_background_blend_witness :
  valid_tape half_tape /\
  exists out,
    AddCroppedBackground.call example_load_image (example_pool 3) example_image
      half_tape 0%nat = Ok (out, 3%nat).
Proof.
  assert (Ht : valid_tape half_tape) by half_tape_is_valid.
  split; [exact Ht |].
  destruct (cropped_background_blend example_load_image (example_pool 3) example_image
              example_background half_tape 0%nat Ht)
    as (out & x_min & y_min & Hcall & _);
    try reflexivity; try (cbn; lia).
  exists out. exact Hcall.
Defined.

(** ** RandomImageCrop: the images that are never cropped *)

(** In an image at least seven times wider than high no trial passes the
    test on the aspect ratio. *)
Lemma wide_trial_rejected image t p :
  valid_tape t ->
  (0 < shape1 image)%nat ->
  (7 * shape0 image <= shape1 image)%nat ->
  RandomImageCrop.trial image t p = Ok (None, (p + 2)%nat).
Proof.
  intros Ht Hw Hh.
  unfold RandomImageCrop.trial, RandomImageCrop.trial_locals, bind, random_uniform, ret, raise.
  set (W := inject_Z (Z.of_nat (shape1 image))).
  set (H := inject_Z (Z.of_nat (shape0 image))).
  set (w := (3 # 10) * W + (W - (3 # 10) * W) * t p).
  set (h := (3 # 10) * H + (H - (3 # 10) * H) * t (S p)).
  destruct (Ht p) as [Hu0 Hu1]. destruct (Ht (S p)) as [Hv0 Hv1].
  assert (HW : 1 <= W) by (unfold W, Qle; simpl; lia).
  assert (HH0 : 0 <= H) by (unfold H, Qle; simpl; lia).
  assert (HH : 7 * H <= W) by (unfold W, H, Qle; simpl; lia).
  assert (Hwlow : (3 # 10) * W <= w) by (unfold w; nra).
  assert (Hwpos : 0 < w) by lra.
  assert (Hhle : h <= H) by (unfold h; nra).
  destruct (Qeq_bool w 0) eqn:Ez.
  { apply Qeq_bool_iff in Ez. rewrite Ez in Hwpos. by apply Qlt_irrefl in Hwpos. }
  assert (Hratio : Qlt_bool (h / w) (1 # 2) = true).
  { unfold Qlt_bool. apply negb_true_iff.
    destruct (Qle_bool (1 # 2) (h / w)) eqn:E; [| done].
    apply Qle_bool_iff in E.
    apply (Qmult_le_compat_r _ _ w) in E; [| by apply Qlt_le_weak].
    assert (Hdiv : h / w * w == h)
      by (field; intros Hz; rewrite Hz in Hwpos; by apply Qlt_irrefl in Hwpos).
    rewrite Hdiv in E. lra. }
  rewrite Hratio. cbn [orb]. do 2 f_equal. lia.
Qed.

(** X14.  In a non-empty image at least seven times higher than wide, or
    at least seven times wider than high, every trial is rejected whatever
    the draws in [0,1) are: a loop of [n] trials runs all of them and falls
    through, so the call can only return through the identity mode. *)
Theorem elongated_image_never_cropped (image : ndarray) (t : Tape) (n p : nat) :
  valid_tape t ->
  (0 < shape1 image)%nat ->
  (7 * shape1 image <= shape0 image \/ 7 * shape0 image <= shape1 image)%nat ->
  RandomImageCrop.trials n image t p = Ok (None, n, (p + 2 * n)%nat) /\
  forall q, RandomImageCrop.trial_locals image t q = Ok (None, (q + 2)%nat).
Proof.
  intros Ht Hw Hshape.
  assert (Hrej : forall q, RandomImageCrop.trial image t q = Ok (None, (q + 2)%nat)).
  { intros q. destruct Hshape; [by apply narrow_trial_rejected | by apply wide_trial_rejected]. }
  split; [by apply rejected_trials |].
  intros q. specialize (Hrej q). unfold RandomImageCrop.trial, bind in Hrej.
  destruct (RandomImageCrop.trial_locals image t q) as [[[[rect current] |] q'] | e];
    unfold ret in Hrej; congruence.
Qed.

Lemma elongated_image_never_cropped_witness :
  valid_tape half_tape /\
  RandomImageCrop.trials 50 tall_image half_tape 1%nat
  = Ok (None, 50%nat, (1 + 2 * 50)%nat).
Proof.
  assert (Ht : valid_tape half_tape) by half_tape_is_valid.
  split; [exact Ht |].
  apply (elongated_image_never_cropped tall_image half_tape 50 1 Ht); simpl; lia.
Defined.
